(** * ai-code-wizard: the demarcated-block extractor of [codewizard.py]

    A shallow embedding of [CodeAssistant.write_output_files],
    [CodeAssistant.generate_code_and_doc] and [CodeAssistant.run], with the
    properties of the line scanner, of the two output buffers and of the
    call-then-write sequence.

    Python [str] values are sequences of Unicode code points: a text is a
    list of code points, a code point is an [N]. *)

From Stdlib Require Import List NArith Bool Arith Lia String Ascii.
Import ListNotations.

(** ** Texts *)

Module Text.

Definition char := N.
Definition text := list char.

(** Literals are written as ASCII strings. *)
Fixpoint of_string (s : string) : text :=
  match s with
  | EmptyString => []
  | String a s' => N_of_ascii a :: of_string s'
  end.

Definition LF : char := 10%N.
Definition CR : char := 13%N.

Fixpoint text_eqb (a b : text) : bool :=
  match a, b with
  | [], [] => true
  | x :: a', y :: b' => N.eqb x y && text_eqb a' b'
  | _, _ => false
  end.

(** [str.isspace] on one code point: the white space of the Unicode
    database as CPython tabulates it. *)
Definition is_space (c : char) : bool :=
  ((9 <=? c) && (c <=? 13) || (28 <=? c) && (c <=? 32)
   || (c =? 133) || (c =? 160) || (c =? 5760)
   || (8192 <=? c) && (c <=? 8202)
   || (c =? 8232) || (c =? 8233) || (c =? 8239) || (c =? 8287)
   || (c =? 12288))%N.

(** The line boundaries of [str.splitlines]. *)
Definition is_linebreak (c : char) : bool :=
  ((10 <=? c) && (c <=? 13) || (28 <=? c) && (c <=? 30)
   || (c =? 133) || (c =? 8232) || (c =? 8233))%N.

Fixpoint lstrip (s : text) : text :=
  match s with
  | [] => []
  | c :: s' => if is_space c then lstrip s' else s
  end.

Definition rstrip (s : text) : text := rev (lstrip (rev s)).

(** [s.strip()] *)
Definition strip (s : text) : text := rstrip (lstrip s).

(** [s.splitlines()]: the lines of [s] without their line boundaries; a
    carriage return followed by a line feed is one boundary, and a final
    boundary opens no further line. *)
Fixpoint splitlines (s : text) : list text :=
  match s with
  | [] => []
  | c :: s' =>
      if is_linebreak c then
        match s' with
        | d :: s'' =>
            if (c =? CR)%N && (d =? LF)%N then [] :: splitlines s''
            else [] :: splitlines s'
        | [] => [[]]
        end
      else
        match splitlines s' with
        | [] => [[c]]
        | l :: ls => (c :: l) :: ls
        end
  end.

Definition no_linebreak (l : text) : bool :=
  forallb (fun c => negb (is_linebreak c)) l.

(** [sep.join(ls)] *)
Fixpoint join (sep : text) (ls : list text) : text :=
  match ls with
  | [] => []
  | [l] => l
  | l :: ls' => l ++ sep ++ join sep ls'
  end.

(** [t in s] for texts: [t] occurs in [s] as a contiguous run. *)
Fixpoint starts_with (t s : text) : bool :=
  match t, s with
  | [], _ => true
  | x :: t', y :: s' => N.eqb x y && starts_with t' s'
  | _ :: _, [] => false
  end.

Fixpoint contains (t s : text) : bool :=
  starts_with t s ||
  match s with
  | [] => false
  | _ :: s' => contains t s'
  end.

End Text.

Import Text.

(** ** The block extractor: the loop of [write_output_files] *)

Module CodeAssistant.

Definition CODE_OPEN : text := of_string "<code>".
Definition CODE_CLOSE : text := of_string "</code>".
Definition DOC_OPEN : text := of_string "<doc>".
Definition DOC_CLOSE : text := of_string "</doc>".

(** The four local variables of the loop. *)
Record loop_state : Type := mk_state {
  code : list text;
  doc : list text;
  in_code_block : bool;
  in_doc_block : bool
}.

Definition initial : loop_state := mk_state [] [] false false.

(** One iteration of [for line in content.splitlines()]: the four marker
    tests end in [continue]; any other line goes to [code] when the code
    block is open, else to [doc] when the doc block is open. *)
Definition step (st : loop_state) (line : text) : loop_state :=
  if text_eqb (strip line) CODE_OPEN then
    mk_state (code st) (doc st) true (in_doc_block st)
  else if text_eqb (strip line) CODE_CLOSE then
    mk_state (code st) (doc st) false (in_doc_block st)
  else if text_eqb (strip line) DOC_OPEN then
    mk_state (code st) (doc st) (in_code_block st) true
  else if text_eqb (strip line) DOC_CLOSE then
    mk_state (code st) (doc st) (in_code_block st) false
  else if in_code_block st then
    mk_state (code st ++ [line]) (doc st) (in_code_block st) (in_doc_block st)
  else if in_doc_block st then
    mk_state (code st) (doc st ++ [line]) (in_code_block st) (in_doc_block st)
  else st.

Definition scan_from (st : loop_state) (lines : list text) : loop_state :=
  fold_left step lines st.

Definition scan (lines : list text) : loop_state := scan_from initial lines.

(** A line that one of the four tests of the loop catches. *)
Definition is_marker (line : text) : bool :=
  text_eqb (strip line) CODE_OPEN || text_eqb (strip line) CODE_CLOSE
  || text_eqb (strip line) DOC_OPEN || text_eqb (strip line) DOC_CLOSE.

(** The deviations the design names. The loop keeps no record of them. *)
Inductive Anomaly : Type :=
| UnmatchedClose
| NestedOpen
| MarkerOnNonEmptyLine
| NeverClosed.

Definition Anomaly_eq_dec (a b : Anomaly) : {a = b} + {a <> b}.
Proof. decide equality. Defined.

Record ExtractionOutcome : Type := mk_outcome {
  code_text : text;
  doc_text : text;
  anomalies : list Anomaly
}.

(** Lines 148 to 173: the loop, then the two [join]s. *)
Definition code_content (content : text) : text :=
  join [LF] (code (scan (splitlines content))).

Definition doc_content (content : text) : text :=
  join [LF] (doc (scan (splitlines content))).

(** The result of the extraction as the design describes it. Nothing in
    the function stores or reports an anomaly, so the recorded sequence
    is empty whatever the input. *)
Definition extract (content : text) : ExtractionOutcome :=
  mk_outcome (code_content content) (doc_content content) [].

(** *** Shapes of inputs, as sequences of lines *)

Definition all_plain (ls : list text) : bool :=
  forallb (fun l => negb (is_marker l)) ls.

Definition no_code_open (ls : list text) : bool :=
  forallb (fun l => negb (text_eqb (strip l) CODE_OPEN)) ls.

Definition no_code_close (ls : list text) : bool :=
  forallb (fun l => negb (text_eqb (strip l) CODE_CLOSE)) ls.

(** Two blocks one after the other: lines, an opening line, a body, a
    closing line, lines, and the same again. *)
Definition two_blocks (pre : list text) (o1 : text) (b1 : list text) (c1 : text)
    (mid : list text) (o2 : text) (b2 : list text) (c2 : text)
    (post : list text) : list text :=
  pre ++ [o1] ++ b1 ++ [c1] ++ mid ++ [o2] ++ b2 ++ [c2] ++ post.

(** One occurrence of a code block, with the lines that precede it. *)
Record occurrence : Type := mk_occurrence {
  gap : list text;
  open_line : text;
  body : list text;
  close_line : text
}.

Definition render (o : occurrence) : list text :=
  gap o ++ [open_line o] ++ body o ++ [close_line o].

Definition occurrence_ok (o : occurrence) : bool :=
  no_code_open (gap o) && text_eqb (strip (open_line o)) CODE_OPEN
  && all_plain (body o) && text_eqb (strip (close_line o)) CODE_CLOSE.

(** None of the four marker tokens occurs anywhere in the text. *)
Definition no_marker_token (content : text) : bool :=
  negb (contains CODE_OPEN content) && negb (contains CODE_CLOSE content)
  && negb (contains DOC_OPEN content) && negb (contains DOC_CLOSE content).

(** The extracted code between a fresh pair of marker lines. *)
Definition wrap_code (t : text) : text :=
  CODE_OPEN ++ [LF] ++ t ++ [LF] ++ CODE_CLOSE.

(** ** The collaborators and the effects of a run *)

Record message : Type := mk_message { role : text; content : text }.

(** What makes [client.chat.complete] raise. *)
Inductive failure_kind : Type :=
| Transport
| Auth
| RateLimited
| ServerError.

(** One call of the completion collaborator: it returns a response, seen
    here as the contents of its [choices], or it raises. The text of
    what it raises is the collaborator's own and is not carried. *)
Inductive completion : Type :=
| Response (choices : list text)
| Raises (kind : failure_kind).

(** [console.print] of a markup string that holds text of the run (a
    path, the text of an exception): [None] when the string is printed,
    the text of the [MarkupError] when the library refuses its tags.
    The fixed messages of the program are well-formed markup and are
    always printed. *)
Definition console_t : Type := text -> option text.

(** The object a run works on: the console, the client, scripted by the
    number of calls already made, and the three attributes set from the
    command line. *)
Record assistant : Type := mk_assistant {
  console : console_t;
  client : nat -> list message -> completion;
  prompt : text;
  input_code_file : option text;
  out_filename : text
}.

(** The files a run can touch: what [open(path, 'r').read()] gives
    ([None] when it raises), and whether [open(path, 'w')] succeeds.
    When reading raises, [read_error] is [None] for a
    [FileNotFoundError] and holds the text of any other exception; when
    opening for writing raises, [write_error] is the text of the
    exception; [encode_error] is the text of the [UnicodeEncodeError]
    that writing a text raises when it cannot be encoded. *)
Record file_system : Type := mk_fs {
  read_file : text -> option text;
  writable : text -> bool;
  read_error : text -> option text;
  write_error : text -> text;
  encode_error : text -> text
}.

Inductive event : Type :=
| ChatComplete (model : text) (messages : list message)
| DumpRequest (path : text) (request : list message)
| OpenW (path : text)
| Write (path : text) (data : text)
| PrintError.

Inductive py_exception : Type :=
| IndexError
| OSError
| MarkupError.

(** How a method ends: it returns, it calls [sys.exit], or an exception
    leaves it uncaught. *)
Inductive outcome (A : Type) : Type :=
| Returned (a : A)
| Exited (status : nat)
| Uncaught (e : py_exception).

Arguments Returned {A} a.
Arguments Exited {A} status.
Arguments Uncaught {A} e.

(** A method body: it extends the trace of events and ends. *)
Definition Prog (A : Type) : Type := list event -> list event * outcome A.

Definition ret {A} (a : A) : Prog A := fun tr => (tr, Returned a).

Definition bind {A B} (m : Prog A) (k : A -> Prog B) : Prog B :=
  fun tr =>
    match m tr with
    | (tr', Returned a) => k a tr'
    | (tr', Exited n) => (tr', Exited n)
    | (tr', Uncaught e) => (tr', Uncaught e)
    end.

Definition emit (e : event) : Prog unit := fun tr => (tr ++ [e], Returned tt).

Definition sys_exit {A} (status : nat) : Prog A := fun tr => (tr, Exited status).

Definition raise {A} (e : py_exception) : Prog A := fun tr => (tr, Uncaught e).

Definition trace : Prog (list event) := fun tr => (tr, Returned tr).

Notation "x <- m ;; k" := (bind m (fun x => k))
  (at level 61, m at next level, right associativity).
Notation "m ;; k" := (bind m (fun _ => k))
  (at level 61, right associativity).

Definition is_call (e : event) : bool :=
  match e with ChatComplete _ _ => true | _ => false end.

Definition calls_made (tr : list event) : nat :=
  List.length (filter is_call tr).

Definition SYSTEM_PROMPT : text := of_string "
You are an expert Python developer with extensive experience in software development, data analysis, and web application
design. Your role is to assist users by providing accurate and practical advice on Python programming, including syntax, libraries,
and best practices. Offer clear code examples and explanations for various concepts, help debug and optimize code, and share
insights on software development methodologies. Communicate in a clear and concise manner, using appropriate technical terminology
while ensuring that complex ideas are easily understood. Stay updated on the latest trends in the Python ecosystem and encourage
best practices in coding and software development.
".

Definition COMPLEMENT_PROMPT : text := of_string "
write any generated code, in python language, within an opening <code> tag and the closing one </code>, create also a structured
documentation about the generated code, how it works and it is organized and put all that related content enclosed between a single
pair of leading <doc> and trailing </doc> tags. All those tags must be start at the beginning of a line. Do not enclose the
generated code in backtics (```).
".

(** *** Printing and writing what the run supplies *)

Definition ERROR_HEAD : text := of_string "[bold red]Error:[/bold red] ".

(** The two messages of the handlers of [read_code_file]. *)
Definition read_failure_message (fs : file_system) (path : text) : text :=
  match read_error fs path with
  | None => ERROR_HEAD ++ of_string "Input file '" ++ path
            ++ of_string "' not found"
  | Some e => ERROR_HEAD ++ of_string "Failed to read input file: " ++ e
  end.

Definition wrote_code_message (code_file : text) : text :=
  of_string "
[bold green]Successfully wrote improved code to:[/bold green] " ++ code_file.

Definition wrote_doc_message (doc_file : text) : text :=
  of_string "
[bold green]Successfully wrote documentation to:[/bold green] " ++ doc_file.

(** A handler that prints its message and calls [sys.exit(1)]: when
    the console refuses the message the [MarkupError] leaves the
    handler and the exit is not reached. *)
Definition print_and_exit {A} (con : console_t) (msg : text) : Prog A :=
  fun tr =>
    match con msg with
    | None => (tr ++ [PrintError], Exited 1)
    | Some _ => (tr, Uncaught MarkupError)
    end.

(** The UTF-8 codec refuses the surrogate code points. *)
Definition is_surrogate (c : char) : bool := ((55296 <=? c) && (c <=? 57343))%N.

Definition encodable (data : text) : bool :=
  forallb (fun c => negb (is_surrogate c)) data.

(** The body of a [try]: it extends the trace and either completes or
    raises; what it raises is kept as the text [str(e)] the handler
    prints. *)
Definition Try : Type := list event -> list event * option text.

Definition try_then (a b : Try) : Try :=
  fun tr =>
    match a tr with
    | (tr', None) => b tr'
    | (tr', Some e) => (tr', Some e)
    end.

(** [open(path, 'w')]: the file is emptied as it is opened. *)
Definition open_w (fs : file_system) (path : text) : Try :=
  fun tr =>
    if writable fs path then (tr ++ [OpenW path], None)
    else (tr, Some (write_error fs path)).

(** [fout.write(data)]: the text is encoded as it is written, and
    nothing of it is written when that fails. *)
Definition fout_write (fs : file_system) (path data : text) : Try :=
  fun tr =>
    if encodable data then (tr ++ [Write path data], None)
    else (tr, Some (encode_error fs data)).

(** [with open(path, 'w') as fout: fout.write(data); fout.write(nl)]. *)
Definition write_file (fs : file_system) (path data : text) : Try :=
  try_then (open_w fs path)
    (try_then (fout_write fs path data) (fout_write fs path [LF])).

(** A print of a success message inside the [try]. *)
Definition print_markup (con : console_t) (msg : text) : Try :=
  fun tr => (tr, con msg).

(** [try: body except Exception as e: print(head + str(e));
    sys.exit(1)]. *)
Definition try_write (con : console_t) (head : text) (body : Try)
  : Prog unit :=
  fun tr =>
    match body tr with
    | (tr', None) => (tr', Returned tt)
    | (tr', Some e) => print_and_exit con (ERROR_HEAD ++ head ++ e) tr'
    end.

Section Run.

Variable fs : file_system.
Variable self : assistant.

(** [read_code_file]: both handlers print, the first the path and the
    second the text of the exception, and leave with status 1. Without
    a path [open] raises a [TypeError] whose text holds no tag. *)
Definition read_code_file : Prog text :=
  match input_code_file self with
  | None => emit PrintError ;; sys_exit 1
  | Some path =>
      match read_file fs path with
      | Some src => ret src
      | None => print_and_exit (console self) (read_failure_message fs path)
      end
  end.

(** [dump_api_request]: no handler around the [open]. *)
Definition dump_api_request (request : list message) : Prog unit :=
  if writable fs (of_string "api_request.json") then
    emit (DumpRequest (of_string "api_request.json") request)
  else raise OSError.

(** The two messages of the request: the system prompt, then the
    user's prompt, the fixed instructions and the fenced source. *)
Definition build_messages (src : text) : list message :=
  let prompt' := prompt self ++ of_string "; " ++ COMPLEMENT_PROMPT in
  [ mk_message (of_string "system") SYSTEM_PROMPT;
    mk_message (of_string "user") (prompt' ++ src) ].

Definition fenced (c : text) : text :=
  of_string "
```python
" ++ c ++ of_string "
```
".

(** [generate_code_and_doc]: one call of the client inside [try]; any
    exception prints and leaves with status 1. *)
Definition generate_code_and_doc : Prog text :=
  src <- match input_code_file self with
         | Some _ => c <- read_code_file ;; ret (fenced c)
         | None => ret []
         end ;;
  let messages := build_messages src in
  tr <- trace ;;
  emit (ChatComplete (of_string "codestral-latest") messages) ;;
  match client self (calls_made tr) messages with
  | Raises _ => emit PrintError ;; sys_exit 1
  | Response choices =>
      dump_api_request messages ;;
      match choices with
      | improved_code :: _ => ret improved_code
      | [] => raise IndexError
      end
  end.

(** The [try] of [write_output_files]: the two files, each followed by
    the print that names it. *)
Definition write_output_files (content : text) : Prog unit :=
  let code_file := out_filename self ++ of_string ".py" in
  let doc_file := out_filename self ++ of_string ".md" in
  try_write (console self) (of_string "Failed to write output files: ")
    (try_then (write_file fs code_file (code_content content))
    (try_then (print_markup (console self) (wrote_code_message code_file))
    (try_then (write_file fs doc_file (doc_content content))
              (print_markup (console self) (wrote_doc_message doc_file))))).

Definition run : Prog unit :=
  code_and_doc <- generate_code_and_doc ;;
  write_output_files code_and_doc.

End Run.

(** The paths opened for writing by [write_file], in order. The dump of
    the request is an event of its own and is no artifact. Prints that
    succeed leave no event, except the error prints. *)
Definition files_written (tr : list event) : list text :=
  flat_map (fun e => match e with OpenW p => [p] | _ => [] end) tr.

(** How many line feeds end a text. *)
Fixpoint leading_newlines (s : text) : nat :=
  match s with
  | c :: s' => if (c =? LF)%N then S (leading_newlines s') else 0
  | [] => 0
  end.

Definition trailing_newlines (s : text) : nat := leading_newlines (rev s).

(** What a file holds after the trace: the data written to it since it
    was last opened for writing; [None] when the trace never opened it. *)
Definition file_step (path : text) (held : option text) (e : event)
  : option text :=
  match e with
  | OpenW p => if text_eqb p path then Some [] else held
  | Write p data =>
      if text_eqb p path then option_map (fun c => c ++ data) held else held
  | _ => held
  end.

Definition file_content (path : text) (tr : list event) : option text :=
  fold_left (file_step path) tr None.

(** The events of the two writes of [write_output_files]. *)
Definition artifact_events (stem code_data doc_data : text) : list event :=
  [ OpenW (stem ++ of_string ".py");
    Write (stem ++ of_string ".py") code_data;
    Write (stem ++ of_string ".py") [LF];
    OpenW (stem ++ of_string ".md");
    Write (stem ++ of_string ".md") doc_data;
    Write (stem ++ of_string ".md") [LF] ].

End CodeAssistant.

(** ** Sample inputs *)

Module Samples.

Import CodeAssistant.

Definition two_pairs : text := of_string "Here it is.
<doc>
Summary line.
</doc>
  <code>
x = 1
y = 2
</code>
Bye.".

Definition scenario : text :=
  of_string "<doc>
Summary line.
</doc>
<code>
print(" ++ [34%N] ++ of_string "hi" ++ [34%N] ++ of_string ")
</code>
".

Definition two_code_blocks : text := of_string "intro
<code>
a = 1
</code>
between
<code>
b = 2
c = 3
</code>
after".

Definition stray_close : text := of_string "lost
</code>
<code>
kept
</code>".

Definition never_closed : text := of_string "intro
<code>
x = 1
<doc>
y = 2".

Definition no_markers : text := of_string "Sorry, I cannot help with that.".

Definition blank_before_close : text := of_string "<code>
a = 1

</code>
<doc>
d
</doc>".

(** Sample texts of exceptions. *)
Definition permission_denied (path : text) : text :=
  of_string "[Errno 13] Permission denied: '" ++ path ++ of_string "'".

Definition surrogates_refused (data : text) : text :=
  of_string "'utf-8' codec can't encode characters: surrogates not allowed".

(** Every file can be read as empty and written. *)
Definition open_fs : file_system :=
  mk_fs (fun _ => Some []) (fun _ => true) (fun _ => None)
        permission_denied surrogates_refused.

(** How many closing tags a message holds. *)
Fixpoint closing_tags (s : text) : nat :=
  match s with
  | [] => 0
  | c :: s' =>
      match s' with
      | d :: _ => if ((c =? 91) && (d =? 47))%N then 1 else 0
      | [] => 0
      end + closing_tags s'
  end.

(** A console that prints a message unless it holds a closing tag
    besides the one of its heading. *)
Definition plain_console : console_t :=
  fun msg =>
    if closing_tags msg <=? 1 then None
    else Some (of_string "closing tag '[/b]' doesn't match any open tag").

Definition answering (reply : text) : nat -> list message -> completion :=
  fun _ _ => Response [reply].

(** Two failed calls, then an answer. *)
Definition flaky (k : failure_kind) (reply : text)
  : nat -> list message -> completion :=
  fun n _ => match n with 0 | 1 => Raises k | _ => Response [reply] end.

Definition failing (k : failure_kind) : nat -> list message -> completion :=
  fun _ _ => Raises k.

Definition assistant_with (c : nat -> list message -> completion) : assistant :=
  mk_assistant plain_console c (of_string "improve") None (of_string "out").

End Samples.

(** ** The rest of [codewizard.py]: arguments, start-up and [main] *)

Module Main.

Import CodeAssistant.

(** What [parse_args] hands back: the three destinations of the
    parser. *)
Record namespace : Type := mk_namespace {
  ns_input_code_file : option text;
  ns_out_filename : text;
  ns_prompt : text
}.

Definition client_t : Type := nat -> list message -> completion.

Section Main.

(** The console made at the head of [main]. *)
Variable console : console_t.

Variable fs : file_system.

(** [os.environ.get] of the key: [None] when the variable is unset. *)
Variable MISTRAL_API_KEY : option text.

(** The constructor of the client: [None] when it raises. *)
Variable Mistral : text -> option client_t.

(** [parser.parse_args()] on the command line: the namespace, or the
    exit the library takes by itself. *)
Variable parse_args : list text -> outcome namespace.

(** [sys.argv], the name of the program first. *)
Variable argv : list text.

(** The test at the head of [parse_arguments]. *)
Definition wants_help : bool :=
  (List.length argv =? 1)
  || existsb (text_eqb (of_string "-h")) argv
  || existsb (text_eqb (of_string "--help")) argv.

(** [show_help] prints the panel and leaves with status 0. *)
Definition show_help {A} : Prog A := sys_exit 0.

Definition parse_arguments : Prog namespace :=
  if wants_help then show_help else fun tr => (tr, parse_args argv).

(** [initialize_mistral_client]: [not self.api_key] holds of a missing
    and of an empty key. *)
Definition initialize_mistral_client : Prog client_t :=
  match MISTRAL_API_KEY with
  | None | Some [] => emit PrintError ;; sys_exit 1
  | Some key =>
      match Mistral key with
      | Some c => ret c
      | None => emit PrintError ;; sys_exit 1
      end
  end.

(** [CodeAssistant.__init__] *)
Definition init (input_code_file : option text) (out_filename prompt : text)
  : Prog assistant :=
  c <- initialize_mistral_client ;;
  ret (mk_assistant console c prompt input_code_file out_filename).

Definition main : Prog unit :=
  args <- parse_arguments ;;
  a <- init (ns_input_code_file args) (ns_out_filename args) (ns_prompt args) ;;
  run fs a.

End Main.

End Main.

(** ** [codemistral-wizard.py]: the reply written as it comes *)

Module CodeImprovementAssistant.

Import CodeAssistant.

Record arguments : Type := mk_arguments {
  input : text;
  output : text;
  prompt : text
}.

Section Assistant.

(** The console made in [__init__]. *)
Variable console : console_t.

Variable fs : file_system.
Variable MISTRAL_API_KEY : option text.
Variable Mistral : text -> option Main.client_t.
Variable parse_args : list text -> outcome arguments.
Variable argv : list text.

Definition parse_arguments : Prog arguments :=
  if Main.wants_help argv then Main.show_help
  else fun tr => (tr, parse_args argv).

(** [__init__]: the arguments first, then the key and the client. *)
Definition init : Prog (arguments * Main.client_t) :=
  args <- parse_arguments ;;
  c <- Main.initialize_mistral_client MISTRAL_API_KEY Mistral ;;
  ret (args, c).

(** [read_code_file]: the handlers print the path, or the text of the
    exception, and leave with status 1. *)
Definition read_code_file (file_path : text) : Prog text :=
  match read_file fs file_path with
  | Some src => ret src
  | None => print_and_exit console (read_failure_message fs file_path)
  end.

(** [write_output_file]: the file, then the print that names it, inside
    one [try]. *)
Definition write_output_file (file_path content : text) : Prog unit :=
  try_write console (of_string "Failed to write output file: ")
    (try_then (write_file fs file_path content)
              (print_markup console (wrote_code_message file_path))).

Definition build_message (args : arguments) (src : text) : list message :=
  [ mk_message (of_string "user")
      (prompt args ++ of_string "
```python
" ++ src ++ of_string "
```") ].

Definition generate_improved_code (args : arguments) (c : Main.client_t)
  : Prog text :=
  src <- read_code_file (input args) ;;
  let message := build_message args src in
  tr <- trace ;;
  emit (ChatComplete (of_string "codestral-latest") message) ;;
  match c (calls_made tr) message with
  | Raises _ => emit PrintError ;; sys_exit 1
  | Response (improved_code :: _) => ret improved_code
  | Response [] => raise IndexError
  end.

Definition run (args : arguments) (c : Main.client_t) : Prog unit :=
  improved_code <- generate_improved_code args c ;;
  write_output_file (output args) improved_code.

(** The two lines under [if __name__ == "__main__"]. *)
Definition main : Prog unit :=
  ac <- init ;;
  run (fst ac) (snd ac).

End Assistant.

End CodeImprovementAssistant.

(** ** Predicates on lines used by the properties below *)

Module Shapes.

Import CodeAssistant.

Definition all_space (s : text) : bool := forallb is_space s.

Definition is_doc_marker (line : text) : bool :=
  text_eqb (strip line) DOC_OPEN || text_eqb (strip line) DOC_CLOSE.

Definition tokens : list text := [CODE_OPEN; CODE_CLOSE; DOC_OPEN; DOC_CLOSE].

(** [a] is [b] with some elements left out, the order kept. *)
Inductive subseq {A : Type} : list A -> list A -> Prop :=
| subseq_nil : subseq [] []
| subseq_skip x a b : subseq a b -> subseq a (x :: b)
| subseq_take x a b : subseq a b -> subseq (x :: a) (x :: b).

(** The extracted doc between a fresh pair of marker lines. *)
Definition wrap_doc (t : text) : text :=
  DOC_OPEN ++ [LF] ++ t ++ [LF] ++ DOC_CLOSE.

(** The source put after the prompt: none without an input file, the
    fenced content of the file when it can be read. *)
Definition source_of (fs : file_system) (self : assistant) : option text :=
  match input_code_file self with
  | None => Some []
  | Some path => option_map fenced (read_file fs path)
  end.

Definition DUMP_PATH : text := of_string "api_request.json".

Definition MODEL : text := of_string "codestral-latest".

End Shapes.

(** ** Further sample collaborators *)

Module MoreSamples.

Import CodeAssistant.

(** Every file can be read as empty; only [out.md] cannot be opened for
    writing. *)
Definition no_doc_fs : file_system :=
  mk_fs (fun _ => Some [])
        (fun p => negb (text_eqb p (of_string "out.md")))
        (fun _ => None) Samples.permission_denied Samples.surrogates_refused.

(** Every file can be read as empty; [api_request.json] cannot be
    opened for writing. *)
Definition no_dump_fs : file_system :=
  mk_fs (fun _ => Some [])
        (fun p => negb (text_eqb p (of_string "api_request.json")))
        (fun _ => None) Samples.permission_denied Samples.surrogates_refused.

(** No file can be read. *)
Definition unreadable_fs : file_system :=
  mk_fs (fun _ => None) (fun _ => true)
        (fun _ => None) Samples.permission_denied Samples.surrogates_refused.

Definition no_choice : nat -> list message -> completion :=
  fun _ _ => Response [].

Definition assistant_reading (c : nat -> list message -> completion)
  : assistant :=
  mk_assistant Samples.plain_console c (of_string "improve")
    (Some (of_string "in.py")) (of_string "out").

(** An assistant whose output stem holds a closing tag. *)
Definition assistant_with_tag (c : nat -> list message -> completion)
  : assistant :=
  mk_assistant Samples.plain_console c (of_string "improve") None
    (of_string "out[/b]").

(** An assistant whose input path holds a closing tag. *)
Definition assistant_reading_tag (c : nat -> list message -> completion)
  : assistant :=
  mk_assistant Samples.plain_console c (of_string "improve")
    (Some (of_string "a[/b].py")) (of_string "out").

(** A text whose code block holds a lone surrogate. *)
Definition surrogate_reply : text :=
  of_string "<code>
x = '" ++ [55296%N] ++ of_string "'
</code>".

Definition improve_args : CodeImprovementAssistant.arguments :=
  CodeImprovementAssistant.mk_arguments
    (of_string "in.py") (of_string "better.py") (of_string "improve").

Definition no_parse : list text -> outcome Main.namespace :=
  fun _ => Exited 2.

Definition parse_to (ns : Main.namespace)
  : list text -> outcome Main.namespace :=
  fun _ => Returned ns.

Definition any_client : text -> option Main.client_t :=
  fun _ => Some (Samples.answering Samples.two_pairs).

End MoreSamples.

(** * Properties *)

(** ** Texts, lines and white space *)

Module TextFacts.

Example splitlines_crlf :
  splitlines [97; 13; 10; 98; 10; 10]%N = [[97]; [98]; []]%N.
Proof. reflexivity. Qed.

Example splitlines_lone_cr :
  splitlines [97; 13; 13; 98]%N = [[97]; []; [98]]%N.
Proof. reflexivity. Qed.

Example splitlines_empty : splitlines [] = [].
Proof. reflexivity. Qed.

Example strip_marker :
  strip (of_string "  <code>	 ") = of_string "<code>".
Proof. reflexivity. Qed.

Example join_lines :
  join [LF] [of_string "a"; []; of_string "b"] = of_string "a

b".
Proof. reflexivity. Qed.

Lemma text_eqb_eq (a b : text) : text_eqb a b = true <-> a = b.
Proof.
  revert b; induction a as [|x a IH]; intros [|y b]; simpl;
    try (split; [discriminate | congruence]); try tauto.
  rewrite andb_true_iff, N.eqb_eq, IH. split.
  - intros [-> ->]; reflexivity.
  - intros E; injection E; auto.
Qed.

Lemma text_eqb_refl (a : text) : text_eqb a a = true.
Proof. apply text_eqb_eq; reflexivity. Qed.

Lemma text_eqb_neq (a b : text) : a <> b -> text_eqb a b = false.
Proof.
  intros N; destruct (text_eqb a b) eqn:E; [|reflexivity].
  apply text_eqb_eq in E; contradiction.
Qed.

(** Induction two characters at a time, as [splitlines] recurses. *)
Lemma text_pair_ind (P : text -> Prop) :
  P [] ->
  (forall c, P [c]) ->
  (forall c d s, P s -> P (d :: s) -> P (c :: d :: s)) ->
  forall s, P s.
Proof.
  intros H0 H1 H2 s.
  enough (P s /\ forall c, P (c :: s)) by tauto.
  induction s as [|d s [IHa IHb]]; split; auto.
Qed.

Lemma splitlines_cons2 (c d : char) (s : text) :
  splitlines (c :: d :: s) =
  if is_linebreak c then
    if ((c =? CR) && (d =? LF))%N then [] :: splitlines s
    else [] :: splitlines (d :: s)
  else
    match splitlines (d :: s) with
    | [] => [[c]]
    | l :: ls => (c :: l) :: ls
    end.
Proof. reflexivity. Qed.

Lemma splitlines_nil_inv (s : text) : splitlines s = [] -> s = [].
Proof.
  destruct s as [|c s]; [reflexivity|]. simpl.
  destruct (is_linebreak c).
  - destruct s as [|d s]; [discriminate|].
    destruct ((c =? CR) && (d =? LF))%N; discriminate.
  - destruct (splitlines s); discriminate.
Qed.

(** The first line is a prefix of the text. *)
Lemma splitlines_head_prefix (s : text) :
  forall l ls, splitlines s = l :: ls -> exists r, s = l ++ r.
Proof.
  induction s as [|c s IH]; intros l ls; [discriminate|]. simpl.
  destruct (is_linebreak c).
  - intros E. exists (c :: s).
    destruct s as [|d s].
    + injection E as <- _; reflexivity.
    + destruct ((c =? CR) && (d =? LF))%N; injection E as <- _; reflexivity.
  - destruct (splitlines s) as [|l0 ls0] eqn:E0; intros E;
      injection E as <- <-.
    + apply splitlines_nil_inv in E0; subst s. exists []; reflexivity.
    + destruct (IH _ _ eq_refl) as [r ->]. exists r; reflexivity.
Qed.

(** Every line occurs in the text. *)
Lemma splitlines_infix (s : text) :
  forall l, In l (splitlines s) -> exists a b, s = a ++ l ++ b.
Proof.
  induction s as [| c | c d s IHs IHd] using text_pair_ind; intros l.
  - intros [].
  - simpl. destruct (is_linebreak c); intros [<- | []].
    + exists [], [c]; reflexivity.
    + exists [], []; reflexivity.
  - rewrite splitlines_cons2. destruct (is_linebreak c).
    + destruct ((c =? CR) && (d =? LF))%N; intros [<- | Hin].
      * exists [], (c :: d :: s); reflexivity.
      * destruct (IHs _ Hin) as (a & b & ->).
        exists (c :: d :: a), b; reflexivity.
      * exists [], (c :: d :: s); reflexivity.
      * destruct (IHd _ Hin) as (a & b & E).
        exists (c :: a), b; simpl; rewrite <- E; reflexivity.
    + destruct (splitlines (d :: s)) as [|l0 ls0] eqn:E0.
      * discriminate (splitlines_nil_inv _ E0).
      * intros [<- | Hin].
        -- destruct (splitlines_head_prefix _ _ _ E0) as [r E].
           exists [], r; simpl; rewrite E; reflexivity.
        -- destruct (IHd l (or_intror Hin)) as (a & b & E).
           exists (c :: a), b; simpl; rewrite <- E; reflexivity.
Qed.

(** No line holds a line boundary. *)
Lemma splitlines_no_linebreak (s : text) :
  Forall (fun l => no_linebreak l = true) (splitlines s).
Proof.
  induction s as [| c | c d s IHs IHd] using text_pair_ind.
  - constructor.
  - simpl. destruct (is_linebreak c) eqn:E; repeat constructor.
    simpl; rewrite E; reflexivity.
  - rewrite splitlines_cons2. destruct (is_linebreak c) eqn:E.
    + destruct ((c =? CR) && (d =? LF))%N; constructor; auto.
    + destruct (splitlines (d :: s)) as [|l0 ls0].
      * repeat constructor. simpl; rewrite E; reflexivity.
      * inversion IHd; subst. constructor; auto.
        simpl; rewrite E; simpl; assumption.
Qed.

(** A line followed by a line feed is split off as it is. *)
Lemma splitlines_line (l rest : text) :
  no_linebreak l = true ->
  splitlines (l ++ LF :: rest) = l :: splitlines rest.
Proof.
  induction l as [|c l IH]; simpl.
  - intros _. destruct rest; reflexivity.
  - rewrite andb_true_iff, negb_true_iff. intros [Hc Hl].
    rewrite Hc, (IH Hl). reflexivity.
Qed.

Lemma splitlines_last (l : text) :
  no_linebreak l = true -> l <> [] -> splitlines l = [l].
Proof.
  induction l as [|c l IH]; [congruence|]. simpl.
  rewrite andb_true_iff, negb_true_iff. intros [Hc Hl] _. rewrite Hc.
  destruct l as [|d l]; [reflexivity|].
  rewrite (IH Hl) by discriminate. reflexivity.
Qed.

Lemma lstrip_suffix (s : text) : exists a, s = a ++ lstrip s.
Proof.
  induction s as [|c s [a IH]]; [exists []; reflexivity|]. simpl.
  destruct (is_space c).
  - exists (c :: a); simpl; rewrite <- IH; reflexivity.
  - exists []; reflexivity.
Qed.

Lemma rstrip_prefix (s : text) : exists b, s = rstrip s ++ b.
Proof.
  unfold rstrip. destruct (lstrip_suffix (rev s)) as [a E].
  exists (rev a). rewrite <- rev_app_distr, <- E, rev_involutive. reflexivity.
Qed.

(** The stripped line occurs in the line. *)
Lemma strip_infix (s : text) : exists a b, s = a ++ strip s ++ b.
Proof.
  unfold strip. destruct (lstrip_suffix s) as [a Ea].
  destruct (rstrip_prefix (lstrip s)) as [b Eb].
  exists a, b. rewrite <- Eb. exact Ea.
Qed.

Lemma starts_with_app (t b : text) : starts_with t (t ++ b) = true.
Proof.
  induction t as [|x t IH]; simpl; [reflexivity|].
  rewrite N.eqb_refl, IH. reflexivity.
Qed.

Lemma contains_infix (t a b : text) : contains t (a ++ t ++ b) = true.
Proof.
  induction a as [|x a IH]; simpl.
  - assert (U : forall s, starts_with t s = true -> contains t s = true)
      by (intros [|y s] H; simpl; rewrite H; reflexivity).
    apply U, starts_with_app.
  - rewrite IH. apply orb_true_r.
Qed.

(** [join] and [splitlines]: joining lines with line feeds and putting
    a line feed and a tail after them gives the lines back. An empty
    sequence of lines joins to the empty text, which is one empty
    line. *)
Lemma join_cons (sep l : text) (ls : list text) :
  ls <> [] -> join sep (l :: ls) = l ++ sep ++ join sep ls.
Proof. destruct ls; [congruence | reflexivity]. Qed.

Lemma splitlines_join_then (ls : list text) (rest : text) :
  Forall (fun l => no_linebreak l = true) ls ->
  splitlines (join [LF] ls ++ LF :: rest) =
  match ls with [] => [[]] | _ => ls end ++ splitlines rest.
Proof.
  induction 1 as [|l ls Hl Hls IH].
  - simpl. destruct rest; reflexivity.
  - destruct ls as [|l' ls'].
    + simpl join. apply splitlines_line; assumption.
    + rewrite join_cons by discriminate.
      change (l ++ [LF] ++ join [LF] (l' :: ls'))
        with (l ++ LF :: join [LF] (l' :: ls')).
      rewrite <- app_assoc, <- app_comm_cons.
      rewrite (splitlines_line _ _ Hl), IH. reflexivity.
Qed.

(** The lines of a joined text are among the lines joined. *)
Lemma splitlines_join_sub (ls : list text) :
  Forall (fun l => no_linebreak l = true) ls ->
  forall l, In l (splitlines (join [LF] ls)) -> In l ls.
Proof.
  induction 1 as [|x ls Hx Hls IH]; intros l; [intros []|].
  destruct ls as [|y ls].
  - simpl join. destruct x as [|c x].
    + intros [].
    + rewrite (splitlines_last (c :: x) Hx) by discriminate. auto.
  - rewrite join_cons by discriminate.
    change (x ++ [LF] ++ join [LF] (y :: ls))
      with (x ++ LF :: join [LF] (y :: ls)).
    rewrite (splitlines_line _ _ Hx). intros [<- | Hin].
    + left; reflexivity.
    + right; apply IH; assumption.
Qed.

End TextFacts.

(** ** The loop of the extractor *)

Module ExtractorFacts.

Import CodeAssistant TextFacts.

Lemma step_code_open (st : loop_state) (l : text) :
  strip l = CODE_OPEN ->
  step st l = mk_state (code st) (doc st) true (in_doc_block st).
Proof. intros E; unfold step; rewrite E; reflexivity. Qed.

Lemma step_code_close (st : loop_state) (l : text) :
  strip l = CODE_CLOSE ->
  step st l = mk_state (code st) (doc st) false (in_doc_block st).
Proof. intros E; unfold step; rewrite E; reflexivity. Qed.

Lemma step_doc_open (st : loop_state) (l : text) :
  strip l = DOC_OPEN ->
  step st l = mk_state (code st) (doc st) (in_code_block st) true.
Proof. intros E; unfold step; rewrite E; reflexivity. Qed.

Lemma step_doc_close (st : loop_state) (l : text) :
  strip l = DOC_CLOSE ->
  step st l = mk_state (code st) (doc st) (in_code_block st) false.
Proof. intros E; unfold step; rewrite E; reflexivity. Qed.

Lemma is_marker_false (l : text) :
  is_marker l = false ->
  text_eqb (strip l) CODE_OPEN = false /\
  text_eqb (strip l) CODE_CLOSE = false /\
  text_eqb (strip l) DOC_OPEN = false /\
  text_eqb (strip l) DOC_CLOSE = false.
Proof.
  unfold is_marker. rewrite !orb_false_iff. tauto.
Qed.

Lemma step_plain (st : loop_state) (l : text) :
  is_marker l = false ->
  step st l =
  if in_code_block st then
    mk_state (code st ++ [l]) (doc st) (in_code_block st) (in_doc_block st)
  else if in_doc_block st then
    mk_state (code st) (doc st ++ [l]) (in_code_block st) (in_doc_block st)
  else st.
Proof.
  intros H. destruct (is_marker_false _ H) as (A & B & C & D).
  unfold step. rewrite A, B, C, D. reflexivity.
Qed.

(** The cases of one iteration. *)
Lemma step_cases (st : loop_state) (l : text) :
  (strip l = CODE_OPEN \/ strip l = CODE_CLOSE \/
   strip l = DOC_OPEN \/ strip l = DOC_CLOSE) /\ is_marker l = true
  \/ is_marker l = false.
Proof.
  unfold is_marker.
  destruct (text_eqb (strip l) CODE_OPEN) eqn:A;
    [apply text_eqb_eq in A; left; split; auto|].
  destruct (text_eqb (strip l) CODE_CLOSE) eqn:B;
    [apply text_eqb_eq in B; left; split; auto|].
  destruct (text_eqb (strip l) DOC_OPEN) eqn:C;
    [apply text_eqb_eq in C; left; split; auto|].
  destruct (text_eqb (strip l) DOC_CLOSE) eqn:D;
    [apply text_eqb_eq in D; left; split; auto|].
  right; reflexivity.
Qed.

Lemma scan_from_app (st : loop_state) (a b : list text) :
  scan_from st (a ++ b) = scan_from (scan_from st a) b.
Proof. apply fold_left_app. Qed.

Lemma scan_from_cons (st : loop_state) (l : text) (ls : list text) :
  scan_from st (l :: ls) = scan_from (step st l) ls.
Proof. reflexivity. Qed.

(** A run of lines that are no markers. *)
Lemma scan_from_plain (ls : list text) :
  forall st, all_plain ls = true ->
  scan_from st ls =
  if in_code_block st then
    mk_state (code st ++ ls) (doc st) (in_code_block st) (in_doc_block st)
  else if in_doc_block st then
    mk_state (code st) (doc st ++ ls) (in_code_block st) (in_doc_block st)
  else st.
Proof.
  induction ls as [|l ls IH]; intros [c d ic id]; simpl.
  - intros _. rewrite !app_nil_r. destruct ic, id; reflexivity.
  - rewrite andb_true_iff, negb_true_iff. intros [Hl Hls].
    fold (scan_from (step (mk_state c d ic id) l) ls).
    rewrite (step_plain _ _ Hl), (IH _ Hls). simpl.
    destruct ic, id; simpl; rewrite <- ?app_assoc; reflexivity.
Qed.

(** The code buffer and the code flag never depend on the doc side. *)
Lemma step_code_side (st1 st2 : loop_state) (l : text) :
  code st1 = code st2 -> in_code_block st1 = in_code_block st2 ->
  code (step st1 l) = code (step st2 l) /\
  in_code_block (step st1 l) = in_code_block (step st2 l).
Proof.
  intros Ec Ei. unfold step.
  destruct (text_eqb (strip l) CODE_OPEN); [simpl; auto|].
  destruct (text_eqb (strip l) CODE_CLOSE); [simpl; auto|].
  destruct (text_eqb (strip l) DOC_OPEN); [simpl; auto|].
  destruct (text_eqb (strip l) DOC_CLOSE); [simpl; auto|].
  rewrite <- Ei. destruct (in_code_block st1) eqn:I1.
  - simpl. rewrite Ec. auto.
  - destruct (in_doc_block st1), (in_doc_block st2); simpl;
      split; congruence.
Qed.

Lemma scan_from_code_side (ls : list text) :
  forall st1 st2,
  code st1 = code st2 -> in_code_block st1 = in_code_block st2 ->
  code (scan_from st1 ls) = code (scan_from st2 ls) /\
  in_code_block (scan_from st1 ls) = in_code_block (scan_from st2 ls).
Proof.
  induction ls as [|l ls IH]; intros st1 st2 Ec Ei; [simpl; auto|].
  rewrite !scan_from_cons.
  destruct (step_code_side st1 st2 l Ec Ei) as [Ec' Ei'].
  apply IH; assumption.
Qed.

(** While no code block is opened the code buffer stands still. *)
Lemma scan_from_no_code_open (ls : list text) :
  forall st, no_code_open ls = true -> in_code_block st = false ->
  code (scan_from st ls) = code st /\
  in_code_block (scan_from st ls) = false.
Proof.
  induction ls as [|l ls IH]; intros st; simpl; [auto|].
  rewrite andb_true_iff, negb_true_iff. intros [Hl Hls] Hi.
  fold (scan_from (step st l) ls).
  assert (S : code (step st l) = code st /\ in_code_block (step st l) = false).
  { unfold step. rewrite Hl, Hi.
    destruct (text_eqb (strip l) CODE_CLOSE); [simpl; auto|].
    destruct (text_eqb (strip l) DOC_OPEN); [simpl; auto|].
    destruct (text_eqb (strip l) DOC_CLOSE); [simpl; auto|].
    destruct (in_doc_block st); simpl; auto. }
  destruct S as [Sc Si]. destruct (IH _ Hls Si) as [A B].
  rewrite A, Sc. auto.
Qed.

(** While the code block is not closed, every line that is no marker
    reaches the code buffer. *)
Lemma scan_from_no_code_close (ls : list text) :
  forall st, no_code_close ls = true -> in_code_block st = true ->
  code (scan_from st ls) =
    code st ++ filter (fun l => negb (is_marker l)) ls /\
  in_code_block (scan_from st ls) = true.
Proof.
  induction ls as [|l ls IH]; intros st; simpl.
  - intros _ Hi. rewrite app_nil_r. auto.
  - rewrite andb_true_iff, negb_true_iff. intros [Hl Hls] Hi.
    fold (scan_from (step st l) ls).
    assert (S : code (step st l) =
                code st ++ (if negb (is_marker l) then [l] else []) /\
                in_code_block (step st l) = true).
    { destruct (step_cases st l) as [[[E|[E|[E|E]]] M] | M]; rewrite M; simpl.
      - rewrite (step_code_open _ _ E). simpl. rewrite app_nil_r. auto.
      - apply text_eqb_eq in E. congruence.
      - rewrite (step_doc_open _ _ E). simpl. rewrite app_nil_r. auto.
      - rewrite (step_doc_close _ _ E). simpl. rewrite app_nil_r. auto.
      - rewrite (step_plain _ _ M), Hi. simpl. auto. }
    destruct S as [Sc Si]. destruct (IH _ Hls Si) as [A B].
    rewrite A, Sc, <- app_assoc. split; [|assumption].
    destruct (negb (is_marker l)); reflexivity.
Qed.

(** What reaches a buffer is a line of the input that is no marker. *)
Lemma scan_from_buffers (P : text -> Prop) (ls : list text) :
  forall st,
  (forall l, In l ls -> is_marker l = false -> P l) ->
  Forall P (code st) -> Forall P (doc st) ->
  Forall P (code (scan_from st ls)) /\ Forall P (doc (scan_from st ls)).
Proof.
  induction ls as [|l ls IH]; intros st HP Hc Hd; [simpl; auto|].
  rewrite scan_from_cons. apply IH.
  - intros l' Hin; apply HP; right; assumption.
  - destruct (step_cases st l) as [[[E|[E|[E|E]]] _] | M].
    + rewrite (step_code_open _ _ E); assumption.
    + rewrite (step_code_close _ _ E); assumption.
    + rewrite (step_doc_open _ _ E); assumption.
    + rewrite (step_doc_close _ _ E); assumption.
    + rewrite (step_plain _ _ M).
      destruct (in_code_block st); simpl;
        [apply Forall_app; split; [assumption|]; repeat constructor;
         apply HP; [left; reflexivity | assumption]|].
      destruct (in_doc_block st); assumption.
  - destruct (step_cases st l) as [[[E|[E|[E|E]]] _] | M].
    + rewrite (step_code_open _ _ E); assumption.
    + rewrite (step_code_close _ _ E); assumption.
    + rewrite (step_doc_open _ _ E); assumption.
    + rewrite (step_doc_close _ _ E); assumption.
    + rewrite (step_plain _ _ M).
      destruct (in_code_block st); simpl; [assumption|].
      destruct (in_doc_block st); simpl; [|assumption].
      apply Forall_app; split; [assumption|]. repeat constructor.
      apply HP; [left; reflexivity | assumption].
Qed.

Lemma scan_buffers_plain (ls : list text) :
  Forall (fun l => is_marker l = false) (code (scan ls)) /\
  Forall (fun l => is_marker l = false) (doc (scan ls)).
Proof.
  apply scan_from_buffers; try constructor. auto.
Qed.

Lemma scan_buffers_no_linebreak (content : text) :
  Forall (fun l => no_linebreak l = true) (code (scan (splitlines content))) /\
  Forall (fun l => no_linebreak l = true) (doc (scan (splitlines content))).
Proof.
  apply scan_from_buffers; try constructor.
  intros l Hin _.
  exact (proj1 (Forall_forall _ _) (splitlines_no_linebreak content) l Hin).
Qed.

End ExtractorFacts.

(** ** Blocks *)

Module BlockFacts.

Import CodeAssistant TextFacts ExtractorFacts.

Lemma scan_from_single (st : loop_state) (l : text) :
  scan_from st [l] = step st l.
Proof. reflexivity. Qed.

(** A whole code block: the body joins the code buffer. *)
Lemma scan_code_block (st : loop_state) (o : text) (b : list text) (c : text) :
  strip o = CODE_OPEN -> all_plain b = true -> strip c = CODE_CLOSE ->
  scan_from st ([o] ++ b ++ [c]) =
  mk_state (code st ++ b) (doc st) false (in_doc_block st).
Proof.
  intros Ho Hb Hc.
  rewrite !scan_from_app, !scan_from_single, (step_code_open _ _ Ho).
  rewrite (scan_from_plain _ _ Hb). simpl.
  rewrite (step_code_close _ _ Hc). reflexivity.
Qed.

(** A whole doc block met while the code block is closed. *)
Lemma scan_doc_block (st : loop_state) (o : text) (b : list text) (c : text) :
  in_code_block st = false ->
  strip o = DOC_OPEN -> all_plain b = true -> strip c = DOC_CLOSE ->
  scan_from st ([o] ++ b ++ [c]) =
  mk_state (code st) (doc st ++ b) false false.
Proof.
  intros Hi Ho Hb Hc.
  rewrite !scan_from_app, !scan_from_single, (step_doc_open _ _ Ho).
  rewrite (scan_from_plain _ _ Hb). simpl. rewrite Hi. simpl.
  rewrite (step_doc_close _ _ Hc). reflexivity.
Qed.

(** Lines outside every block are dropped. *)
Lemma scan_outside (st : loop_state) (ls : list text) :
  in_code_block st = false -> in_doc_block st = false ->
  all_plain ls = true -> scan_from st ls = st.
Proof.
  intros Hc Hd Hp. rewrite (scan_from_plain _ _ Hp), Hc, Hd. reflexivity.
Qed.

Lemma scan_two_blocks_code_doc pre co cb cc mid dop db dc post :
  all_plain pre = true -> all_plain cb = true -> all_plain mid = true ->
  all_plain db = true -> all_plain post = true ->
  strip co = CODE_OPEN -> strip cc = CODE_CLOSE ->
  strip dop = DOC_OPEN -> strip dc = DOC_CLOSE ->
  scan (two_blocks pre co cb cc mid dop db dc post) =
  mk_state cb db false false.
Proof.
  intros Hpre Hcb Hmid Hdb Hpost Hco Hcc Hdo Hdc.
  unfold two_blocks, scan.
  rewrite scan_from_app, (scan_outside initial pre eq_refl eq_refl Hpre).
  replace ([co] ++ cb ++ [cc] ++ mid ++ [dop] ++ db ++ [dc] ++ post)
    with (([co] ++ cb ++ [cc]) ++ mid ++ ([dop] ++ db ++ [dc]) ++ post)
    by (simpl; rewrite <- !app_assoc; reflexivity).
  rewrite scan_from_app, (scan_code_block initial _ _ _ Hco Hcb Hcc).
  change (mk_state (code initial ++ cb) (doc initial) false
            (in_doc_block initial)) with (mk_state cb [] false false).
  rewrite scan_from_app,
    (scan_outside (mk_state cb [] false false) mid eq_refl eq_refl Hmid).
  rewrite scan_from_app,
    (scan_doc_block (mk_state cb [] false false) _ _ _ eq_refl Hdo Hdb Hdc).
  apply (scan_outside (mk_state cb db false false) post eq_refl eq_refl Hpost).
Qed.

Lemma scan_two_blocks_doc_code pre co cb cc mid dop db dc post :
  all_plain pre = true -> all_plain cb = true -> all_plain mid = true ->
  all_plain db = true -> all_plain post = true ->
  strip co = CODE_OPEN -> strip cc = CODE_CLOSE ->
  strip dop = DOC_OPEN -> strip dc = DOC_CLOSE ->
  scan (two_blocks pre dop db dc mid co cb cc post) =
  mk_state cb db false false.
Proof.
  intros Hpre Hcb Hmid Hdb Hpost Hco Hcc Hdo Hdc.
  unfold two_blocks, scan.
  rewrite scan_from_app, (scan_outside initial pre eq_refl eq_refl Hpre).
  replace ([dop] ++ db ++ [dc] ++ mid ++ [co] ++ cb ++ [cc] ++ post)
    with (([dop] ++ db ++ [dc]) ++ mid ++ ([co] ++ cb ++ [cc]) ++ post)
    by (simpl; rewrite <- !app_assoc; reflexivity).
  rewrite scan_from_app,
    (scan_doc_block initial _ _ _ eq_refl Hdo Hdb Hdc).
  change (mk_state (code initial) (doc initial ++ db) false false)
    with (mk_state [] db false false).
  rewrite scan_from_app,
    (scan_outside (mk_state [] db false false) mid eq_refl eq_refl Hmid).
  rewrite scan_from_app,
    (scan_code_block (mk_state [] db false false) _ _ _ Hco Hcb Hcc).
  apply (scan_outside (mk_state cb db false false) post eq_refl eq_refl Hpost).
Qed.

(** Any number of code blocks, one after the other. *)
Lemma scan_occurrences (occs : list occurrence) :
  forall st, forallb occurrence_ok occs = true -> in_code_block st = false ->
  code (scan_from st (flat_map render occs)) =
    code st ++ List.concat (map body occs) /\
  in_code_block (scan_from st (flat_map render occs)) = false.
Proof.
  induction occs as [|o occs IH]; intros st.
  - intros _ Hi. simpl. rewrite app_nil_r. auto.
  - change (forallb occurrence_ok (o :: occs))
      with (occurrence_ok o && forallb occurrence_ok occs).
    unfold occurrence_ok at 1.
    rewrite !andb_true_iff, !text_eqb_eq.
    intros [[[[Hg Ho] Hb] Hc] Hrest] Hi.
    change (flat_map render (o :: occs))
      with (render o ++ flat_map render occs).
    change (List.concat (map body (o :: occs)))
      with (body o ++ List.concat (map body occs)).
    unfold render at 1 3. rewrite (scan_from_app st), (scan_from_app st).
    destruct (scan_from_no_code_open _ st Hg Hi) as [Gc Gi].
    set (st1 := scan_from st (gap o)) in *.
    rewrite (scan_code_block st1 _ _ _ Ho Hb Hc).
    destruct (IH (mk_state (code st1 ++ body o) (doc st1) false
                    (in_doc_block st1)) Hrest eq_refl) as [A B].
    rewrite A, B. simpl. rewrite Gc, <- app_assoc. auto.
Qed.

Lemma join_app (sep : text) (a b : list text) :
  a <> [] -> b <> [] ->
  join sep (a ++ b) = join sep a ++ sep ++ join sep b.
Proof.
  intros Ha Hb. induction a as [|x a IH]; [congruence|].
  destruct a as [|y a].
  - simpl app. apply join_cons; assumption.
  - change ((x :: y :: a) ++ b) with (x :: (y :: a) ++ b).
    rewrite join_cons by discriminate.
    rewrite IH by discriminate.
    rewrite (join_cons sep x (y :: a)) by discriminate.
    rewrite <- !app_assoc. reflexivity.
Qed.

(** Joining all lines is joining the joined segments, when no segment
    is empty. *)
Lemma join_concat (sep : text) (bodies : list (list text)) :
  Forall (fun b => b <> []) bodies ->
  join sep (List.concat bodies) = join sep (map (join sep) bodies).
Proof.
  induction 1 as [|b bs Hb Hbs IH]; [reflexivity|].
  destruct bs as [|b' bs].
  - simpl. rewrite app_nil_r. reflexivity.
  - change (List.concat (b :: b' :: bs)) with (b ++ List.concat (b' :: bs)).
    change (map (join sep) (b :: b' :: bs))
      with (join sep b :: map (join sep) (b' :: bs)).
    rewrite join_cons by discriminate. rewrite <- IH.
    apply join_app; [assumption|].
    inversion Hbs; subst. simpl. destruct b'; [congruence | discriminate].
Qed.

End BlockFacts.

(** ** The extractor on whole inputs *)

Module ExtractorProperties.

Import CodeAssistant TextFacts ExtractorFacts BlockFacts.

(** The scenario of the design: a doc block, then a code block. *)
Example scenario_doc_then_code :
  extract Samples.scenario =
  mk_outcome (of_string "print(" ++ [34%N] ++ of_string "hi" ++ [34%N]
                ++ of_string ")")
             (of_string "Summary line.") [].
Proof. reflexivity. Qed.

(** A doc block inside a code block: its lines go to the code buffer
    and the doc buffer stays empty. *)
Example doc_block_inside_code_block :
  extract (of_string "<code>
a
<doc>
b
</doc>
c
</code>") = mk_outcome (of_string "a
b
c") [] [].
Proof. reflexivity. Qed.

(** C1. When the lines of the input are one code block and one doc
    block, one after the other in either order, every marker alone on
    its line up to white space and every other line no marker, the
    extracted code text is the lines of the code body joined by line
    feeds, the extracted doc text is the lines of the doc body joined
    by line feeds, and no anomaly is recorded. *)
Theorem one_code_pair_one_doc_pair
    (content : text) (pre : list text) (co : text) (cb : list text)
    (cc : text) (mid : list text) (dop : text) (db : list text) (dc : text)
    (post : list text) :
  all_plain pre = true -> all_plain cb = true -> all_plain mid = true ->
  all_plain db = true -> all_plain post = true ->
  strip co = CODE_OPEN -> strip cc = CODE_CLOSE ->
  strip dop = DOC_OPEN -> strip dc = DOC_CLOSE ->
  splitlines content = two_blocks pre co cb cc mid dop db dc post \/
  splitlines content = two_blocks pre dop db dc mid co cb cc post ->
  code_text (extract content) = join [LF] cb /\
  doc_text (extract content) = join [LF] db /\
  anomalies (extract content) = [].
Proof.
  intros Hpre Hcb Hmid Hdb Hpost Hco Hcc Hdo Hdc Hshape.
  assert (S : scan (splitlines content) = mk_state cb db false false).
  { destruct Hshape as [-> | ->].
    - apply scan_two_blocks_code_doc; assumption.
    - apply scan_two_blocks_doc_code; assumption. }
  unfold extract, code_content, doc_content. rewrite S. simpl. auto.
Qed.

Lemma one_code_pair_one_doc_pair_witness :
  code_text (extract Samples.two_pairs) = of_string "x = 1
y = 2" /\
  doc_text (extract Samples.two_pairs) = of_string "Summary line." /\
  anomalies (extract Samples.two_pairs) = [].
Proof.
  apply (one_code_pair_one_doc_pair Samples.two_pairs
           [of_string "Here it is."] (of_string "  <code>")
           [of_string "x = 1"; of_string "y = 2"] (of_string "</code>")
           [] (of_string "<doc>") [of_string "Summary line."]
           (of_string "</doc>") [of_string "Bye."]);
    try reflexivity.
  right; reflexivity.
Defined.

(** C2. When the lines of the input are any number of code blocks one
    after the other, with lines that open no code block before, between
    and after them, the extracted code text is all the lines of all the
    bodies, in the order of the input, joined by line feeds; when no
    body is empty this is the bodies, each joined by line feeds, joined
    by line feeds. *)
Theorem disjoint_code_blocks_joined_in_order
    (content : text) (occs : list occurrence) (tail : list text) :
  splitlines content = flat_map render occs ++ tail ->
  forallb occurrence_ok occs = true ->
  no_code_open tail = true ->
  code_text (extract content) = join [LF] (List.concat (map body occs)) /\
  (Forall (fun o => body o <> []) occs ->
   code_text (extract content) =
   join [LF] (map (fun o => join [LF] (body o)) occs)).
Proof.
  intros Hshape Hocc Htail.
  assert (C : code (scan (splitlines content)) = List.concat (map body occs)).
  { rewrite Hshape. unfold scan. rewrite scan_from_app.
    destruct (scan_occurrences occs initial Hocc eq_refl) as [A B].
    destruct (scan_from_no_code_open tail _ Htail B) as [A' _].
    rewrite A', A. reflexivity. }
  unfold extract, code_content; simpl. rewrite C. split; [reflexivity|].
  intros Hne. rewrite join_concat by (apply Forall_map; exact Hne).
  rewrite map_map. reflexivity.
Qed.

Lemma disjoint_code_blocks_joined_in_order_witness :
  code_text (extract Samples.two_code_blocks) = of_string "a = 1
b = 2
c = 3".
Proof.
  exact (proj1 (disjoint_code_blocks_joined_in_order Samples.two_code_blocks
           [ mk_occurrence [of_string "intro"] (of_string "<code>")
               [of_string "a = 1"] (of_string "</code>");
             mk_occurrence [of_string "between"] (of_string "<code>")
               [of_string "b = 2"; of_string "c = 3"] (of_string "</code>") ]
           [of_string "after"] eq_refl eq_refl eq_refl)).
Defined.

(** C10. Whatever the input, no line of the code buffer and no line of
    the doc buffer is a marker line, and the same holds of the lines of
    the two extracted texts. *)
Theorem no_marker_line_in_buffers (content : text) :
  Forall (fun l => is_marker l = false) (code (scan (splitlines content))) /\
  Forall (fun l => is_marker l = false) (doc (scan (splitlines content))) /\
  Forall (fun l => is_marker l = false)
    (splitlines (code_text (extract content))) /\
  Forall (fun l => is_marker l = false)
    (splitlines (doc_text (extract content))).
Proof.
  destruct (scan_buffers_plain (splitlines content)) as [Pc Pd].
  destruct (scan_buffers_no_linebreak content) as [Nc Nd].
  repeat split; try assumption; unfold extract, code_content, doc_content; simpl.
  - apply Forall_forall. intros l Hin.
    apply (proj1 (Forall_forall _ _) Pc), (splitlines_join_sub _ Nc), Hin.
  - apply Forall_forall. intros l Hin.
    apply (proj1 (Forall_forall _ _) Pd), (splitlines_join_sub _ Nd), Hin.
Qed.

(** C3, as the code has it. When a line closing the code block comes
    with no line opening it before, the extractor records no anomaly (it
    keeps no record of anomalies); the code block is closed before that
    line, the whole state of the loop is the same after it, the code
    buffer is still empty, and the extracted code text is what the lines
    after it alone would give. *)
Theorem unmatched_code_close_is_ignored
    (content : text) (pre : list text) (cl : text) (post : list text) :
  splitlines content = pre ++ cl :: post ->
  no_code_open pre = true ->
  strip cl = CODE_CLOSE ->
  anomalies (extract content) = [] /\
  in_code_block (scan pre) = false /\
  scan (pre ++ [cl]) = scan pre /\
  code (scan (pre ++ [cl])) = [] /\
  code_text (extract content) = join [LF] (code (scan post)).
Proof.
  intros Hshape Hpre Hcl.
  destruct (scan_from_no_code_open pre initial Hpre eq_refl) as [Pc Pi].
  fold (scan pre) in Pc, Pi. simpl in Pc.
  assert (Same : scan (pre ++ [cl]) = scan pre).
  { unfold scan. rewrite scan_from_app, scan_from_single.
    fold (scan pre). rewrite (step_code_close _ _ Hcl).
    destruct (scan pre) as [c d ic id]. simpl in *. subst. reflexivity. }
  repeat split; try assumption.
  - rewrite Same. exact Pc.
  - unfold extract, code_content; simpl. rewrite Hshape.
    change (pre ++ cl :: post) with (pre ++ [cl] ++ post).
    rewrite app_assoc. unfold scan at 1. rewrite scan_from_app.
    fold (scan (pre ++ [cl])). rewrite Same.
    destruct (scan_from_code_side post (scan pre) initial Pc Pi) as [E _].
    rewrite E. reflexivity.
Qed.

Lemma unmatched_code_close_is_ignored_witness :
  code_text (extract Samples.stray_close) = of_string "kept".
Proof.
  exact (proj2 (proj2 (proj2 (proj2
    (unmatched_code_close_is_ignored Samples.stray_close
       [of_string "lost"] (of_string "</code>")
       [of_string "<code>"; of_string "kept"; of_string "</code>"]
       eq_refl eq_refl eq_refl))))).
Defined.

(** C3 as worded fails: on an input whose second line closes a code
    block that was never opened, the recorded anomalies do not hold
    exactly one unmatched close. *)
Lemma unmatched_close_not_recorded :
  count_occ Anomaly_eq_dec (anomalies (extract Samples.stray_close))
    UnmatchedClose <> 1.
Proof. simpl. discriminate. Qed.

(** C4, as the code has it. When a line opens the code block and no
    later line closes it, the extractor records no anomaly; the block
    is still open at the end of the input, and the extracted code text
    is the code lines gathered before the opening line followed by
    every later line that is no marker, joined by line feeds. *)
Theorem never_closed_code_is_salvaged
    (content : text) (pre : list text) (op : text) (rest : list text) :
  splitlines content = pre ++ op :: rest ->
  strip op = CODE_OPEN ->
  no_code_close rest = true ->
  anomalies (extract content) = [] /\
  in_code_block (scan (splitlines content)) = true /\
  code_text (extract content) =
    join [LF] (code (scan pre) ++ filter (fun l => negb (is_marker l)) rest).
Proof.
  intros Hshape Hop Hrest.
  assert (S : code (scan (splitlines content)) =
              code (scan pre) ++ filter (fun l => negb (is_marker l)) rest /\
              in_code_block (scan (splitlines content)) = true).
  { rewrite Hshape. unfold scan. rewrite scan_from_app, scan_from_cons.
    rewrite (step_code_open _ _ Hop).
    apply (scan_from_no_code_close rest (mk_state _ _ true _) Hrest eq_refl). }
  destruct S as [Sc Si]. repeat split; [assumption|].
  unfold extract, code_content; simpl. rewrite Sc. reflexivity.
Qed.

Lemma never_closed_code_is_salvaged_witness :
  code_text (extract Samples.never_closed) = of_string "x = 1
y = 2".
Proof.
  exact (proj2 (proj2
    (never_closed_code_is_salvaged Samples.never_closed
       [of_string "intro"] (of_string "<code>")
       [of_string "x = 1"; of_string "<doc>"; of_string "y = 2"]
       eq_refl eq_refl eq_refl))).
Defined.

(** C4 as worded fails: on an input that opens a code block and never
    closes it, the recorded anomalies do not hold exactly one never
    closed. *)
Lemma never_closed_not_recorded :
  count_occ Anomaly_eq_dec (anomalies (extract Samples.never_closed))
    NeverClosed <> 1.
Proof. simpl. discriminate. Qed.

(** C5, as the code has it. A line that is no marker is appended to
    the code buffer alone when the code block is open, whether the doc
    block is open or not; to the doc buffer alone when only the doc
    block is open; and it changes nothing when neither is open. The
    two flags are left as they were. *)
Theorem plain_line_routing (st : loop_state) (line : text) :
  is_marker line = false ->
  (in_code_block st = true ->
   code (step st line) = code st ++ [line] /\ doc (step st line) = doc st) /\
  (in_code_block st = false -> in_doc_block st = true ->
   code (step st line) = code st /\ doc (step st line) = doc st ++ [line]) /\
  (in_code_block st = false -> in_doc_block st = false ->
   step st line = st) /\
  in_code_block (step st line) = in_code_block st /\
  in_doc_block (step st line) = in_doc_block st.
Proof.
  intros H. rewrite (step_plain st line H).
  destruct (in_code_block st) eqn:Ic, (in_doc_block st) eqn:Id; simpl;
    repeat split; intros; congruence.
Qed.

Lemma plain_line_routing_witness :
  let st := scan [of_string "<code>"; of_string "<doc>"] in
  code (step st (of_string "x")) = [of_string "x"] /\
  doc (step st (of_string "x")) = [].
Proof.
  exact (proj1 (plain_line_routing
                  (scan [of_string "<code>"; of_string "<doc>"])
                  (of_string "x") eq_refl) eq_refl).
Defined.

(** C5 as worded fails: after a line opening the code block and a line
    opening the doc block both blocks are open, and the next plain line
    is not appended to the doc buffer. *)
Lemma both_open_line_skips_doc :
  let st := scan [of_string "<code>"; of_string "<doc>"] in
  in_code_block st = true /\ in_doc_block st = true /\
  is_marker (of_string "x") = false /\
  doc (step st (of_string "x")) <> doc st ++ [of_string "x"].
Proof. simpl. repeat split; discriminate. Qed.

Lemma all_plain_Forall (ls : list text) :
  Forall (fun l => is_marker l = false) ls -> all_plain ls = true.
Proof.
  intros F. apply forallb_forall. intros l Hin.
  rewrite (proj1 (Forall_forall _ _) F l Hin). reflexivity.
Qed.

(** The lines of the extracted code, put back between two marker
    lines, with or without a line feed at the end. *)
Lemma splitlines_wrap_code (ls : list text) (tail : text) :
  Forall (fun l => no_linebreak l = true) ls ->
  tail = [] \/ tail = [LF] ->
  splitlines (wrap_code (join [LF] ls) ++ tail) =
  [CODE_OPEN] ++ match ls with [] => [[]] | _ => ls end ++ [CODE_CLOSE].
Proof.
  intros N Ht. unfold wrap_code.
  change (CODE_OPEN ++ [LF] ++ join [LF] ls ++ [LF] ++ CODE_CLOSE)
    with (CODE_OPEN ++ LF :: (join [LF] ls ++ LF :: CODE_CLOSE)).
  rewrite <- app_assoc, <- app_comm_cons, <- app_assoc, <- app_comm_cons.
  rewrite (splitlines_line CODE_OPEN _ eq_refl).
  rewrite (splitlines_join_then ls _ N).
  destruct Ht as [-> | ->]; reflexivity.
Qed.

Lemma code_text_extract (content : text) :
  code_text (extract content) = join [LF] (code (scan (splitlines content))).
Proof. reflexivity. Qed.

(** C8. Whatever the input, extracting from the extracted code text put
    back between a line opening and a line closing the code block gives
    the same code text, with or without a line feed after the closing
    line. *)
Theorem rewrapped_code_is_stable (content : text) :
  code_text (extract (wrap_code (code_text (extract content)))) =
    code_text (extract content) /\
  code_text (extract (wrap_code (code_text (extract content)) ++ [LF])) =
    code_text (extract content).
Proof.
  destruct (scan_buffers_plain (splitlines content)) as [Pc _].
  destruct (scan_buffers_no_linebreak content) as [Nc _].
  rewrite (code_text_extract content).
  set (ls := code (scan (splitlines content))) in *.
  assert (R : forall tail, tail = [] \/ tail = [LF] ->
            code_text (extract (wrap_code (join [LF] ls) ++ tail)) =
            join [LF] ls).
  { intros tail Ht. rewrite code_text_extract.
    rewrite (splitlines_wrap_code ls tail Nc Ht). unfold scan.
    rewrite (scan_code_block initial CODE_OPEN _ CODE_CLOSE eq_refl).
    - simpl. destruct ls; reflexivity.
    - destruct ls; [reflexivity | apply all_plain_Forall; assumption].
    - reflexivity. }
  split.
  - rewrite <- (app_nil_r (wrap_code (join [LF] ls))). apply R; auto.
  - apply R; auto.
Qed.

End ExtractorProperties.

(** ** The call and the two writes *)

Module RunFacts.

Import CodeAssistant TextFacts.

Ltac run_unfold :=
  unfold run, generate_code_and_doc, read_code_file, dump_api_request,
    write_output_files, try_write, try_then, write_file, open_w, fout_write,
    print_markup, bind, ret, emit, sys_exit, raise, trace.

Lemma calls_made_app (a b : list event) :
  calls_made (a ++ b) = calls_made a + calls_made b.
Proof. unfold calls_made. rewrite filter_app, length_app. reflexivity. Qed.

Lemma calls_made_snoc (tr : list event) (e : event) :
  calls_made (tr ++ [e]) = calls_made tr + (if is_call e then 1 else 0).
Proof. rewrite calls_made_app. unfold calls_made. simpl. destruct (is_call e); reflexivity. Qed.

Lemma files_written_app (a b : list event) :
  files_written (a ++ b) = files_written a ++ files_written b.
Proof. apply flat_map_app. Qed.

Lemma file_content_app (path : text) (a b : list event) :
  file_content path (a ++ b) =
  fold_left (file_step path) b (file_content path a).
Proof. apply fold_left_app. Qed.

Lemma text_eqb_app (a b c : text) :
  text_eqb (a ++ b) (a ++ c) = text_eqb b c.
Proof.
  induction a as [|x a IH]; simpl; [reflexivity|].
  rewrite N.eqb_refl. exact IH.
Qed.

Lemma trailing_newlines_snoc (s : text) :
  trailing_newlines (s ++ [LF]) = S (trailing_newlines s).
Proof. unfold trailing_newlines. rewrite rev_app_distr. reflexivity. Qed.

(** A handler that prints and exits makes no call, opens no file and
    does not return. *)
Lemma print_and_exit_effects (con : console_t) (msg : text)
    (tr : list event) :
  calls_made (fst (print_and_exit (A:=unit) con msg tr)) = calls_made tr /\
  files_written (fst (print_and_exit (A:=unit) con msg tr)) =
    files_written tr /\
  (forall path,
     file_content path (fst (print_and_exit (A:=unit) con msg tr)) =
     file_content path tr) /\
  (snd (print_and_exit (A:=unit) con msg tr) = Exited 1 \/
   snd (print_and_exit (A:=unit) con msg tr) = Uncaught MarkupError).
Proof.
  unfold print_and_exit. destruct (con msg); simpl.
  - auto.
  - rewrite calls_made_snoc, files_written_app. simpl.
    rewrite app_nil_r, Nat.add_0_r. repeat split; auto.
    intros path. rewrite file_content_app. reflexivity.
Qed.

(** What [write_output_files] does, step by step: each of the two
    opens, the first write of each file and each of the two prints can
    raise, and the handler then prints the text of the exception. *)
Lemma write_output_files_result fs self (content : text) (tr : list event) :
  let py := out_filename self ++ of_string ".py" in
  let md := out_filename self ++ of_string ".md" in
  let failed e :=
    print_and_exit (console self)
      (ERROR_HEAD ++ of_string "Failed to write output files: " ++ e) in
  let code_events :=
    [OpenW py; Write py (code_content content); Write py [LF]] in
  write_output_files fs self content tr =
  if writable fs py then
    if encodable (code_content content) then
      match console self (wrote_code_message py) with
      | Some e => failed e (tr ++ code_events)
      | None =>
          if writable fs md then
            if encodable (doc_content content) then
              match console self (wrote_doc_message md) with
              | Some e =>
                  failed e
                    (tr ++ artifact_events (out_filename self)
                             (code_content content) (doc_content content))
              | None =>
                  (tr ++ artifact_events (out_filename self)
                           (code_content content) (doc_content content),
                   Returned tt)
              end
            else
              failed (encode_error fs (doc_content content))
                (tr ++ code_events ++ [OpenW md])
          else failed (write_error fs md) (tr ++ code_events)
      end
    else failed (encode_error fs (code_content content)) (tr ++ [OpenW py])
  else failed (write_error fs py) tr.
Proof.
  cbv [write_output_files try_write write_file try_then open_w fout_write
       print_markup artifact_events].
  change (encodable [LF]) with true.
  destruct (writable fs (out_filename self ++ of_string ".py"));
    [|reflexivity].
  destruct (encodable (code_content content)); [|reflexivity].
  destruct (console self
              (wrote_code_message (out_filename self ++ of_string ".py")));
    [rewrite <- !app_assoc; reflexivity|].
  destruct (writable fs (out_filename self ++ of_string ".md"));
    [|rewrite <- !app_assoc; reflexivity].
  destruct (encodable (doc_content content));
    [|rewrite <- !app_assoc; reflexivity].
  destruct (console self
              (wrote_doc_message (out_filename self ++ of_string ".md")));
    rewrite <- !app_assoc; reflexivity.
Qed.

(** The files of the two artifacts after the two writes. *)
Lemma artifact_contents (stem code_data doc_data : text)
    (tr : list event) :
  file_content (stem ++ of_string ".py")
    (tr ++ artifact_events stem code_data doc_data) =
    Some (code_data ++ [LF]) /\
  file_content (stem ++ of_string ".md")
    (tr ++ artifact_events stem code_data doc_data) =
    Some (doc_data ++ [LF]).
Proof.
  rewrite !file_content_app. unfold artifact_events. simpl.
  rewrite !text_eqb_app. simpl. auto.
Qed.

(** [generate_code_and_doc] calls the client at most once and opens no
    artifact. *)
Lemma generate_effects fs self (tr : list event) :
  calls_made (fst (generate_code_and_doc fs self tr)) <= S (calls_made tr) /\
  files_written (fst (generate_code_and_doc fs self tr)) = files_written tr.
Proof.
  run_unfold. unfold print_and_exit.
  destruct (input_code_file self) as [p|];
    [destruct (read_file fs p) as [c|];
     [|destruct (console self (read_failure_message fs p))]|];
    try match goal with
        | |- context [client self ?n ?m] => destruct (client self n m) as [[|c' cs]|k]
        end;
    try destruct (writable fs (of_string "api_request.json"));
    simpl; rewrite ?calls_made_snoc, ?files_written_app; simpl;
    rewrite ?app_nil_r; split; try reflexivity; lia.
Qed.

Lemma write_output_files_effects fs self (content : text) (tr : list event) :
  calls_made (fst (write_output_files fs self content tr)) = calls_made tr.
Proof.
  rewrite write_output_files_result. cbv zeta.
  repeat match goal with
         | |- context [if ?b then _ else _] => destruct b
         | |- context [match console self ?m with _ => _ end] =>
             destruct (console self m)
         end;
    try rewrite (proj1 (print_and_exit_effects _ _ _));
    simpl fst; rewrite ?calls_made_app; unfold calls_made; simpl; lia.
Qed.

(** A call that raises ends the method with status 1. *)
Lemma generate_when_call_raises fs self (k : failure_kind) (tr : list event) :
  (forall msgs, client self (calls_made tr) msgs = Raises k) ->
  (forall p, input_code_file self = Some p -> read_file fs p <> None) ->
  exists msgs,
    generate_code_and_doc fs self tr =
    (tr ++ [ChatComplete (of_string "codestral-latest") msgs; PrintError],
     Exited 1).
Proof.
  intros Hc Hr. run_unfold.
  destruct (input_code_file self) as [p|] eqn:Ein.
  - destruct (read_file fs p) as [c|] eqn:Er; [|destruct (Hr p eq_refl Er)].
    exists (build_messages self (fenced c)).
    rewrite Hc, <- app_assoc. reflexivity.
  - exists (build_messages self []).
    rewrite Hc, <- app_assoc. reflexivity.
Qed.

End RunFacts.

(** ** Whole runs *)

Module RunProperties.

Import CodeAssistant TextFacts ExtractorFacts BlockFacts RunFacts.

(** A text in which no marker token occurs has no marker line. *)
Lemma no_token_no_marker_line (content : text) :
  no_marker_token content = true -> all_plain (splitlines content) = true.
Proof.
  unfold no_marker_token. rewrite !andb_true_iff, !negb_true_iff.
  intros [[[A B] C] D]. apply forallb_forall. intros l Hin.
  apply negb_true_iff.
  destruct (splitlines_infix content l Hin) as (a & b & Ec).
  destruct (strip_infix l) as (a' & b' & El).
  assert (K : forall tok, strip l = tok -> contains tok content = true).
  { intros tok Et. rewrite Ec, El, Et.
    replace (a ++ (a' ++ tok ++ b') ++ b) with ((a ++ a') ++ tok ++ (b' ++ b))
      by (rewrite <- !app_assoc; reflexivity).
    apply contains_infix. }
  destruct (step_cases initial l) as [[[E|[E|[E|E]]] _] | M];
    [apply K in E; congruence .. | exact M].
Qed.

(** C6, as the code has it. When none of the four marker tokens occurs
    in the response text, both extracted texts are empty; the run then
    goes on to the two writes as for any other response: when both
    files can be opened and the console prints the two messages that
    name them, it returns normally, having written the two artifacts,
    each holding one line feed. *)
Theorem markerless_response_is_written_empty
    (fs : file_system) (self : assistant) (content : text) :
  no_marker_token content = true ->
  code_text (extract content) = [] /\
  doc_text (extract content) = [] /\
  forall tr0,
    snd (generate_code_and_doc fs self tr0) = Returned content ->
    writable fs (out_filename self ++ of_string ".py") = true ->
    writable fs (out_filename self ++ of_string ".md") = true ->
    console self
      (wrote_code_message (out_filename self ++ of_string ".py")) = None ->
    console self
      (wrote_doc_message (out_filename self ++ of_string ".md")) = None ->
    snd (run fs self tr0) = Returned tt /\
    fst (run fs self tr0) =
      fst (generate_code_and_doc fs self tr0) ++
      artifact_events (out_filename self) [] [] /\
    file_content (out_filename self ++ of_string ".py")
      (fst (run fs self tr0)) = Some [LF] /\
    file_content (out_filename self ++ of_string ".md")
      (fst (run fs self tr0)) = Some [LF].
Proof.
  intros H.
  assert (E : extract content = mk_outcome [] [] []).
  { unfold extract, code_content, doc_content, scan.
    rewrite (scan_outside initial _ eq_refl eq_refl
               (no_token_no_marker_line content H)).
    reflexivity. }
  rewrite E. split; [reflexivity|]. split; [reflexivity|].
  intros tr0 Hgen Hpy Hmd Hpc Hpd. unfold run, bind.
  destruct (generate_code_and_doc fs self tr0) as [tr1 o].
  simpl in Hgen; subst o.
  rewrite write_output_files_result. cbv zeta.
  change (code_content content) with (code_text (extract content)).
  change (doc_content content) with (doc_text (extract content)).
  rewrite E. simpl code_text; simpl doc_text.
  rewrite Hpy, Hmd, Hpc, Hpd. change (encodable []) with true.
  simpl fst; simpl snd.
  destruct (artifact_contents (out_filename self) [] [] tr1) as [Cp Cm].
  repeat split; assumption.
Qed.

Lemma markerless_response_is_written_empty_witness :
  snd (run Samples.open_fs
         (Samples.assistant_with (Samples.answering Samples.no_markers)) [])
    = Returned tt /\
  file_content (of_string "out.py")
    (fst (run Samples.open_fs
            (Samples.assistant_with (Samples.answering Samples.no_markers)) []))
    = Some [LF].
Proof.
  destruct (proj2 (proj2 (markerless_response_is_written_empty
             Samples.open_fs
             (Samples.assistant_with (Samples.answering Samples.no_markers))
             Samples.no_markers eq_refl)) [] eq_refl eq_refl eq_refl
             eq_refl eq_refl)
    as (A & _ & B & _).
  split; [exact A | exact B].
Defined.

(** C6 as worded fails: a response without any marker makes the run
    return normally after opening the two artifact files. *)
Lemma markerless_response_reports_no_failure :
  no_marker_token Samples.no_markers = true /\
  snd (run Samples.open_fs
         (Samples.assistant_with (Samples.answering Samples.no_markers)) [])
    = Returned tt /\
  files_written
    (fst (run Samples.open_fs
            (Samples.assistant_with (Samples.answering Samples.no_markers)) []))
    = [of_string "out.py"; of_string "out.md"].
Proof. vm_compute. auto. Qed.

(** C7, as the code has it. A run calls the completion client at most
    once. When that call raises, whatever the kind of the failure and
    whatever later calls would have given, the run has made exactly one
    call, ends with exit status 1 and has opened no artifact file. *)
Theorem failed_call_is_fatal_without_retry
    (fs : file_system) (self : assistant) :
  calls_made (fst (run fs self [])) <= 1 /\
  forall k : failure_kind,
    (forall msgs, client self 0 msgs = Raises k) ->
    (forall p, input_code_file self = Some p -> read_file fs p <> None) ->
    calls_made (fst (run fs self [])) = 1 /\
    snd (run fs self []) = Exited 1 /\
    files_written (fst (run fs self [])) = [].
Proof.
  split.
  - unfold run, bind.
    pose proof (generate_effects fs self []) as [G _].
    destruct (generate_code_and_doc fs self []) as [tr1 [c|n|e]]; simpl in *;
      try assumption.
    rewrite write_output_files_effects. assumption.
  - intros k Hc Hr.
    destruct (generate_when_call_raises fs self k [] Hc Hr) as [msgs E].
    unfold run, bind. rewrite E. simpl. auto.
Qed.

Lemma failed_call_is_fatal_without_retry_witness :
  calls_made
    (fst (run Samples.open_fs
            (Samples.assistant_with (Samples.failing Auth)) [])) = 1 /\
  snd (run Samples.open_fs
         (Samples.assistant_with (Samples.failing Auth)) []) = Exited 1 /\
  files_written
    (fst (run Samples.open_fs
            (Samples.assistant_with (Samples.failing Auth)) [])) = [].
Proof.
  apply (proj2 (failed_call_is_fatal_without_retry Samples.open_fs
                  (Samples.assistant_with (Samples.failing Auth))) Auth).
  - reflexivity.
  - discriminate.
Defined.

(** C7 as worded fails: with a client that raises a transport failure
    on its first two calls and answers on the third, the run makes one
    call and ends with exit status 1. *)
Lemma transport_failure_is_not_retried :
  calls_made
    (fst (run Samples.open_fs
            (Samples.assistant_with
               (Samples.flaky Transport Samples.two_pairs)) [])) = 1 /\
  snd (run Samples.open_fs
         (Samples.assistant_with
            (Samples.flaky Transport Samples.two_pairs)) []) = Exited 1.
Proof. vm_compute. auto. Qed.

(** C9, as the code has it. A run that returns normally has opened
    exactly two artifact files, the stem followed by [.py] and the stem
    followed by [.md], in that order; each holds the matching extracted
    text followed by one line feed, so it ends in one line feed more
    than the extracted text does. *)
Theorem successful_run_writes_two_artifacts
    (fs : file_system) (self : assistant) (tr0 : list event) :
  snd (run fs self tr0) = Returned tt ->
  exists content,
    snd (generate_code_and_doc fs self tr0) = Returned content /\
    fst (run fs self tr0) =
      fst (generate_code_and_doc fs self tr0) ++
      artifact_events (out_filename self)
        (code_text (extract content)) (doc_text (extract content)) /\
    files_written (fst (run fs self tr0)) =
      files_written tr0 ++
      [out_filename self ++ of_string ".py";
       out_filename self ++ of_string ".md"] /\
    file_content (out_filename self ++ of_string ".py")
      (fst (run fs self tr0)) = Some (code_text (extract content) ++ [LF]) /\
    file_content (out_filename self ++ of_string ".md")
      (fst (run fs self tr0)) = Some (doc_text (extract content) ++ [LF]) /\
    trailing_newlines (code_text (extract content) ++ [LF]) =
      S (trailing_newlines (code_text (extract content))) /\
    trailing_newlines (doc_text (extract content) ++ [LF]) =
      S (trailing_newlines (doc_text (extract content))).
Proof.
  pose proof (generate_effects fs self tr0) as [_ F].
  unfold run, bind.
  destruct (generate_code_and_doc fs self tr0) as [tr1 [content|n|e]];
    simpl; try discriminate.
  rewrite write_output_files_result. cbv zeta.
  assert (NR : forall con msg tr,
            snd (print_and_exit (A:=unit) con msg tr) = Returned tt -> False).
  { intros con msg tr H.
    destruct (print_and_exit_effects con msg tr) as (_ & _ & _ & [E | E]);
      rewrite E in H; discriminate. }
  destruct (writable fs (out_filename self ++ of_string ".py"));
    [|intros H; destruct (NR _ _ _ H)].
  destruct (encodable (code_content content));
    [|intros H; destruct (NR _ _ _ H)].
  destruct (console self
              (wrote_code_message (out_filename self ++ of_string ".py")));
    [intros H; destruct (NR _ _ _ H)|].
  destruct (writable fs (out_filename self ++ of_string ".md"));
    [|intros H; destruct (NR _ _ _ H)].
  destruct (encodable (doc_content content));
    [|intros H; destruct (NR _ _ _ H)].
  destruct (console self
              (wrote_doc_message (out_filename self ++ of_string ".md")));
    [intros H; destruct (NR _ _ _ H)|].
  intros _. exists content. simpl in *.
  destruct (artifact_contents (out_filename self)
              (code_content content) (doc_content content) tr1) as [Cp Cm].
  rewrite files_written_app, F, !trailing_newlines_snoc.
  repeat split; assumption.
Qed.

Lemma successful_run_writes_two_artifacts_witness :
  exists content,
    snd (generate_code_and_doc Samples.open_fs
           (Samples.assistant_with (Samples.answering Samples.two_pairs)) [])
      = Returned content /\
    file_content (of_string "out.py")
      (fst (run Samples.open_fs
              (Samples.assistant_with (Samples.answering Samples.two_pairs))
              [])) = Some (code_text (extract content) ++ [LF]).
Proof.
  destruct (successful_run_writes_two_artifacts Samples.open_fs
              (Samples.assistant_with (Samples.answering Samples.two_pairs))
              [] eq_refl) as (content & G & _ & _ & P & _).
  exists content. split; [exact G | exact P].
Defined.

(** C9 as worded fails: when the last line of the code block is empty
    the code artifact ends in two line feeds. *)
Lemma empty_last_line_gives_two_newlines :
  snd (run Samples.open_fs
         (Samples.assistant_with
            (Samples.answering Samples.blank_before_close)) [])
    = Returned tt /\
  option_map trailing_newlines
    (file_content (of_string "out.py")
       (fst (run Samples.open_fs
               (Samples.assistant_with
                  (Samples.answering Samples.blank_before_close)) [])))
    = Some 2.
Proof. vm_compute. auto. Qed.

End RunProperties.

(** ** More on white space and line boundaries *)

Module TextMore.

Import CodeAssistant TextFacts Shapes.

Lemma lstrip_spaces (a s : text) :
  all_space a = true -> lstrip (a ++ s) = lstrip s.
Proof.
  induction a as [|c a IH]; simpl; [reflexivity|].
  rewrite andb_true_iff. intros [Hc Ha]. rewrite Hc. auto.
Qed.

Lemma lstrip_all_space (a : text) : all_space a = true -> lstrip a = [].
Proof.
  intros H. rewrite <- (app_nil_r a). rewrite lstrip_spaces; auto.
Qed.

Lemma lstrip_app (s b : text) :
  lstrip (s ++ b) = if all_space s then lstrip b else lstrip s ++ b.
Proof.
  induction s as [|c s IH]; simpl; [reflexivity|].
  destruct (is_space c); simpl; [exact IH | reflexivity].
Qed.

Lemma all_space_rev (a : text) : all_space (rev a) = all_space a.
Proof.
  unfold all_space. induction a as [|c a IH]; simpl; [reflexivity|].
  rewrite forallb_app, IH. simpl. rewrite andb_true_r. apply andb_comm.
Qed.

Lemma rstrip_spaces (s b : text) :
  all_space b = true -> rstrip (s ++ b) = rstrip s.
Proof.
  intros H. unfold rstrip. rewrite rev_app_distr, lstrip_spaces; auto.
  rewrite all_space_rev. exact H.
Qed.

(** White space around a text does not change what [strip] gives. *)
Lemma strip_pad (a s b : text) :
  all_space a = true -> all_space b = true ->
  strip (a ++ s ++ b) = strip s.
Proof.
  intros Ha Hb. unfold strip. rewrite (lstrip_spaces a _ Ha), lstrip_app.
  destruct (all_space s) eqn:Hs.
  - rewrite (lstrip_all_space b Hb), (lstrip_all_space s Hs). reflexivity.
  - apply rstrip_spaces. exact Hb.
Qed.

Lemma lstrip_split (s : text) :
  exists a, all_space a = true /\ s = a ++ lstrip s.
Proof.
  induction s as [|c s (a & Ha & E)]; [exists []; auto|]. simpl.
  destruct (is_space c) eqn:Hc.
  - exists (c :: a). simpl. rewrite Hc, Ha, <- E. auto.
  - exists []. auto.
Qed.

(** A line is its stripped form between two runs of white space. *)
Lemma strip_split (s : text) :
  exists a b, all_space a = true /\ all_space b = true /\
              s = a ++ strip s ++ b.
Proof.
  destruct (lstrip_split s) as (a & Ha & Ea).
  destruct (lstrip_split (rev (lstrip s))) as (b & Hb & Eb).
  exists a, (rev b). rewrite all_space_rev. repeat split; auto.
  unfold strip, rstrip. rewrite <- rev_app_distr, <- Eb, rev_involutive.
  exact Ea.
Qed.

(** A line ended by a carriage return and a line feed is split off as
    one ended by a line feed is. *)
Lemma splitlines_line_crlf (l rest : text) :
  no_linebreak l = true ->
  splitlines (l ++ CR :: LF :: rest) = l :: splitlines rest.
Proof.
  induction l as [|c l IH]; simpl.
  - reflexivity.
  - rewrite andb_true_iff, negb_true_iff. intros [Hc Hl].
    rewrite Hc, (IH Hl). reflexivity.
Qed.

Lemma splitlines_join_crlf (ls : list text) :
  Forall (fun l => no_linebreak l = true) ls ->
  splitlines (join [CR; LF] ls) = splitlines (join [LF] ls).
Proof.
  induction 1 as [|l ls Hl Hls IH]; [reflexivity|].
  destruct ls as [|l' ls]; [reflexivity|].
  rewrite (join_cons [CR; LF]), (join_cons [LF]) by discriminate.
  change (l ++ [CR; LF] ++ join [CR; LF] (l' :: ls))
    with (l ++ CR :: LF :: join [CR; LF] (l' :: ls)).
  change (l ++ [LF] ++ join [LF] (l' :: ls))
    with (l ++ LF :: join [LF] (l' :: ls)).
  rewrite (splitlines_line_crlf _ _ Hl), (splitlines_line _ _ Hl), IH.
  reflexivity.
Qed.

(** What holds of every character of every line and of the line feed
    holds of every character of the joined text. *)
Lemma join_Forall (P : char -> Prop) (ls : list text) :
  P LF -> Forall (Forall P) ls -> Forall P (join [LF] ls).
Proof.
  intros HLF. induction 1 as [|l ls Hl Hls IH]; [constructor|].
  destruct ls as [|l' ls]; [exact Hl|].
  rewrite join_cons by discriminate.
  apply Forall_app; split; [exact Hl|].
  apply Forall_app; split; [repeat constructor; exact HLF | exact IH].
Qed.

Lemma no_linebreak_Forall (l : text) :
  no_linebreak l = true ->
  Forall (fun c => is_linebreak c = true -> c = LF) l.
Proof.
  unfold no_linebreak. rewrite forallb_forall. intros H.
  apply Forall_forall. intros c Hin Hc.
  apply H in Hin. rewrite Hc in Hin. discriminate.
Qed.

Lemma contains_app (t a s b : text) :
  contains t s = true -> contains t (a ++ s ++ b) = true.
Proof.
  intros H. induction a as [|x a IH]; simpl.
  - induction s as [|y s IHs]; simpl in *.
    + destruct t; [|discriminate]. destruct b; reflexivity.
    + apply orb_true_iff in H. destruct H as [H | H].
      * assert (P : forall t s, starts_with t s = true ->
                    starts_with t (s ++ b) = true).
        { clear. induction t as [|x t IHt]; intros [|z s]; simpl;
            try reflexivity; try discriminate.
          rewrite !andb_true_iff. intros [-> Hs]. auto. }
        change (y :: s ++ b) with ((y :: s) ++ b). rewrite (P _ _ H).
        reflexivity.
      * rewrite (IHs H). apply orb_true_r.
  - rewrite IH. apply orb_true_r.
Qed.

End TextMore.

(** ** More on the loop of the extractor *)

Module ExtractorMore.

Import CodeAssistant TextFacts ExtractorFacts BlockFacts Shapes TextMore.

(** What a run of lines adds to the two buffers. *)
Lemma scan_from_trail (ls : list text) :
  forall st, exists c d,
    code (scan_from st ls) = code st ++ c /\
    doc (scan_from st ls) = doc st ++ d /\
    subseq c ls /\ subseq d ls /\
    List.length c + List.length d <=
      List.length (filter (fun l => negb (is_marker l)) ls).
Proof.
  induction ls as [|l ls IH]; intros st.
  - exists [], []. simpl. rewrite !app_nil_r. repeat split; auto; constructor.
  - rewrite scan_from_cons.
    destruct (IH (step st l)) as (c & d & Ec & Ed & Sc & Sd & Len).
    destruct (step_cases st l) as [[E M] | M].
    + assert (K : code (step st l) = code st /\ doc (step st l) = doc st).
      { destruct E as [E|[E|[E|E]]];
          [rewrite (step_code_open _ _ E) | rewrite (step_code_close _ _ E)
          |rewrite (step_doc_open _ _ E) | rewrite (step_doc_close _ _ E)];
          auto. }
      destruct K as [Kc Kd]. exists c, d. simpl filter. rewrite M. simpl negb.
      rewrite Ec, Ed, Kc, Kd. repeat split; auto; constructor; assumption.
    + simpl filter. rewrite M. simpl negb. cbv iota.
      rewrite (step_plain _ _ M) in Ec, Ed |- *.
      destruct (in_code_block st); [|destruct (in_doc_block st)];
        simpl in Ec, Ed.
      * exists (l :: c), d. rewrite Ec, Ed, <- app_assoc.
        repeat split; auto; try (constructor; assumption); simpl; lia.
      * exists c, (l :: d). rewrite Ec, Ed, <- app_assoc.
        repeat split; auto; try (constructor; assumption); simpl; lia.
      * exists c, d. rewrite Ec, Ed.
        repeat split; auto; try (constructor; assumption); simpl; lia.
Qed.

(** X1. The lines of the code buffer are lines of the input, in their
    order, and so are the lines of the doc buffer; together the two
    buffers hold no more lines than the input has lines that are no
    markers, so no line is kept twice. *)
Theorem buffers_are_subsequences (content : text) :
  subseq (code (scan (splitlines content))) (splitlines content) /\
  subseq (doc (scan (splitlines content))) (splitlines content) /\
  List.length (code (scan (splitlines content))) +
  List.length (doc (scan (splitlines content))) <=
    List.length (filter (fun l => negb (is_marker l)) (splitlines content)).
Proof.
  destruct (scan_from_trail (splitlines content) initial)
    as (c & d & Ec & Ed & Sc & Sd & Len).
  unfold scan. rewrite Ec, Ed. simpl. auto.
Qed.

(** X2. Reading further lines never changes what the buffers already
    hold: after more input each buffer is the earlier buffer followed by
    further lines. *)
Theorem buffers_only_grow (a b : list text) :
  exists c d,
    code (scan (a ++ b)) = code (scan a) ++ c /\
    doc (scan (a ++ b)) = doc (scan a) ++ d.
Proof.
  unfold scan. rewrite scan_from_app.
  destruct (scan_from_trail b (scan_from initial a))
    as (c & d & Ec & Ed & _).
  exists c, d. auto.
Qed.

(** Lines held at the start stay in front of what the scan adds. *)
Lemma scan_from_factor (ls : list text) :
  forall c0 d0 c d ic id,
  scan_from (mk_state (c0 ++ c) (d0 ++ d) ic id) ls =
  mk_state (c0 ++ code (scan_from (mk_state c d ic id) ls))
           (d0 ++ doc (scan_from (mk_state c d ic id) ls))
           (in_code_block (scan_from (mk_state c d ic id) ls))
           (in_doc_block (scan_from (mk_state c d ic id) ls)).
Proof.
  induction ls as [|l ls IH]; intros c0 d0 c d ic id; [reflexivity|].
  rewrite !scan_from_cons. unfold step; simpl.
  destruct (text_eqb (strip l) CODE_OPEN); [apply IH|].
  destruct (text_eqb (strip l) CODE_CLOSE); [apply IH|].
  destruct (text_eqb (strip l) DOC_OPEN); [apply IH|].
  destruct (text_eqb (strip l) DOC_CLOSE); [apply IH|].
  destruct ic; [rewrite <- app_assoc; apply IH|].
  destruct id; [rewrite <- app_assoc; apply IH | apply IH].
Qed.

(** X3. When both blocks are closed at the end of a first run of lines,
    scanning those lines followed by further lines gives, in each
    buffer, what the first lines give followed by what the further
    lines alone give, and the flags the further lines alone give. *)
Theorem balanced_inputs_compose (a b : list text) :
  in_code_block (scan a) = false -> in_doc_block (scan a) = false ->
  code (scan (a ++ b)) = code (scan a) ++ code (scan b) /\
  doc (scan (a ++ b)) = doc (scan a) ++ doc (scan b) /\
  in_code_block (scan (a ++ b)) = in_code_block (scan b) /\
  in_doc_block (scan (a ++ b)) = in_doc_block (scan b).
Proof.
  intros Hc Hd. unfold scan in *. rewrite scan_from_app.
  destruct (scan_from initial a) as [ca da ic id]. simpl in *. subst.
  pose proof (scan_from_factor b ca da [] [] false false) as F.
  rewrite !app_nil_r in F. rewrite F. simpl. auto.
Qed.

Lemma balanced_inputs_compose_witness :
  code (scan (splitlines Samples.stray_close ++
              splitlines Samples.two_code_blocks)) =
  code (scan (splitlines Samples.stray_close)) ++
  code (scan (splitlines Samples.two_code_blocks)).
Proof.
  exact (proj1 (balanced_inputs_compose
                  (splitlines Samples.stray_close)
                  (splitlines Samples.two_code_blocks) eq_refl eq_refl)).
Defined.

Lemma step_doc_marker_code_side (st : loop_state) (l : text) :
  is_doc_marker l = true ->
  code (step st l) = code st /\
  in_code_block (step st l) = in_code_block st.
Proof.
  unfold is_doc_marker. rewrite orb_true_iff, !text_eqb_eq.
  intros [E | E];
    [rewrite (step_doc_open _ _ E) | rewrite (step_doc_close _ _ E)]; auto.
Qed.

Lemma scan_from_without_doc_markers (ls : list text) :
  forall st1 st2,
  code st1 = code st2 -> in_code_block st1 = in_code_block st2 ->
  code (scan_from st1 ls) =
  code (scan_from st2 (filter (fun l => negb (is_doc_marker l)) ls)).
Proof.
  induction ls as [|l ls IH]; intros st1 st2 Ec Ei; [exact Ec|].
  rewrite scan_from_cons. simpl filter.
  destruct (is_doc_marker l) eqn:D; simpl negb; cbv iota.
  - destruct (step_doc_marker_code_side st1 l D) as [Kc Ki].
    apply IH; congruence.
  - rewrite scan_from_cons.
    destruct (step_code_side st1 st2 l Ec Ei) as [Kc Ki].
    apply IH; assumption.
Qed.

(** X4. The code buffer does not depend on the doc markers: leaving out
    every line that opens or closes the doc block gives the same code
    buffer. *)
Theorem code_ignores_doc_markers (lines : list text) :
  code (scan lines) =
  code (scan (filter (fun l => negb (is_doc_marker l)) lines)).
Proof.
  apply scan_from_without_doc_markers; reflexivity.
Qed.

Lemma scan_from_doc_shadowed (ls : list text) :
  forall st, no_code_close ls = true -> in_code_block st = true ->
  doc (scan_from st ls) = doc st.
Proof.
  induction ls as [|l ls IH]; intros st; simpl; [auto|].
  rewrite andb_true_iff, negb_true_iff. intros [Hl Hls] Hi.
  fold (scan_from (step st l) ls).
  assert (S : doc (step st l) = doc st /\ in_code_block (step st l) = true).
  { destruct (step_cases st l) as [[[E|[E|[E|E]]] _] | M].
    - rewrite (step_code_open _ _ E). auto.
    - apply text_eqb_eq in E. congruence.
    - rewrite (step_doc_open _ _ E). auto.
    - rewrite (step_doc_close _ _ E). auto.
    - rewrite (step_plain _ _ M), Hi. auto. }
  destruct S as [Sd Si]. rewrite (IH _ Hls Si). exact Sd.
Qed.

(** X5. A code block that is opened and never closed takes every later
    line: the doc text is what the lines before the opening line give,
    whatever doc markers and lines follow. *)
Theorem open_code_block_shadows_doc
    (content : text) (pre : list text) (op : text) (rest : list text) :
  splitlines content = pre ++ op :: rest ->
  strip op = CODE_OPEN ->
  no_code_close rest = true ->
  doc_text (extract content) = join [LF] (doc (scan pre)).
Proof.
  intros Hshape Hop Hrest.
  unfold extract, doc_content; simpl. rewrite Hshape. unfold scan.
  rewrite scan_from_app, scan_from_cons, (step_code_open _ _ Hop).
  rewrite (scan_from_doc_shadowed rest (mk_state _ _ true _) Hrest eq_refl).
  reflexivity.
Qed.

Lemma open_code_block_shadows_doc_witness :
  doc_text (extract Samples.never_closed) = [].
Proof.
  exact (open_code_block_shadows_doc Samples.never_closed
           [of_string "intro"] (of_string "<code>")
           [of_string "x = 1"; of_string "<doc>"; of_string "y = 2"]
           eq_refl eq_refl eq_refl).
Defined.

(** X6. A marker that changes no flag can be left out: a line opening a
    block that is open, or closing a block that is closed, leaves the
    whole scan of the input as it is without that line. In particular
    a second opening line does not empty the buffer. *)
Theorem redundant_marker_is_dropped (a : list text) (l : text) (b : list text) :
  strip l = CODE_OPEN /\ in_code_block (scan a) = true \/
  strip l = CODE_CLOSE /\ in_code_block (scan a) = false \/
  strip l = DOC_OPEN /\ in_doc_block (scan a) = true \/
  strip l = DOC_CLOSE /\ in_doc_block (scan a) = false ->
  scan (a ++ l :: b) = scan (a ++ b).
Proof.
  intros H. unfold scan in *. rewrite !scan_from_app, scan_from_cons.
  f_equal. destruct (scan_from initial a) as [c d ic id]. simpl in H.
  destruct H as [[E F]|[[E F]|[[E F]|[E F]]]]; subst;
    [rewrite (step_code_open _ _ E) | rewrite (step_code_close _ _ E)
    |rewrite (step_doc_open _ _ E) | rewrite (step_doc_close _ _ E)];
    reflexivity.
Qed.

Lemma redundant_marker_is_dropped_witness :
  scan ([of_string "<code>"; of_string "a"] ++
        of_string " <code>" :: [of_string "b"; of_string "</code>"]) =
  scan ([of_string "<code>"; of_string "a"] ++
        [of_string "b"; of_string "</code>"]).
Proof.
  apply redundant_marker_is_dropped. left. split; reflexivity.
Defined.

(** X7. Lines ended by a carriage return and a line feed give the same
    extraction as the same lines ended by a line feed. *)
Theorem crlf_and_lf_extract_alike (ls : list text) :
  Forall (fun l => no_linebreak l = true) ls ->
  extract (join [CR; LF] ls) = extract (join [LF] ls).
Proof.
  intros H. unfold extract, code_content, doc_content.
  rewrite (splitlines_join_crlf ls H). reflexivity.
Qed.

Lemma crlf_and_lf_extract_alike_witness :
  extract (join [CR; LF] (splitlines Samples.two_pairs)) =
  extract (join [LF] (splitlines Samples.two_pairs)).
Proof.
  apply crlf_and_lf_extract_alike. apply splitlines_no_linebreak.
Defined.

(** X8. Whatever line boundaries the input uses, the only line boundary
    in the two extracted texts is the line feed. *)
Theorem extracted_texts_use_line_feeds_only (content : text) :
  Forall (fun c => is_linebreak c = true -> c = LF)
    (code_text (extract content)) /\
  Forall (fun c => is_linebreak c = true -> c = LF)
    (doc_text (extract content)).
Proof.
  destruct (scan_buffers_no_linebreak content) as [Nc Nd].
  split; simpl; unfold code_content, doc_content;
    (apply join_Forall; [auto|]);
    eapply Forall_impl; try eassumption;
    intros l Hl; apply no_linebreak_Forall; exact Hl.
Qed.

Lemma splitlines_wrap_doc (ls : list text) :
  Forall (fun l => no_linebreak l = true) ls ->
  splitlines (wrap_doc (join [LF] ls)) =
  [DOC_OPEN] ++ match ls with [] => [[]] | _ => ls end ++ [DOC_CLOSE].
Proof.
  intros N. unfold wrap_doc.
  change (DOC_OPEN ++ [LF] ++ join [LF] ls ++ [LF] ++ DOC_CLOSE)
    with (DOC_OPEN ++ LF :: (join [LF] ls ++ LF :: DOC_CLOSE)).
  rewrite (splitlines_line DOC_OPEN _ eq_refl).
  rewrite (splitlines_join_then ls _ N). reflexivity.
Qed.

(** X9. Extracting from the extracted doc text put back between a line
    opening and a line closing the doc block gives the same doc text,
    and an empty code text. *)
Theorem rewrapped_doc_is_stable (content : text) :
  doc_text (extract (wrap_doc (doc_text (extract content)))) =
    doc_text (extract content) /\
  code_text (extract (wrap_doc (doc_text (extract content)))) = [].
Proof.
  destruct (scan_buffers_plain (splitlines content)) as [_ Pd].
  destruct (scan_buffers_no_linebreak content) as [_ Nd].
  simpl. unfold doc_content at 1 3, code_content.
  fold (doc_content content). unfold doc_content at 1 2 3.
  set (ls := doc (scan (splitlines content))) in *.
  rewrite (splitlines_wrap_doc ls Nd). unfold scan.
  rewrite (scan_doc_block initial DOC_OPEN _ DOC_CLOSE eq_refl eq_refl).
  - simpl. split; [destruct ls; reflexivity | reflexivity].
  - destruct ls; [reflexivity|].
    apply forallb_forall. intros l Hin.
    rewrite (proj1 (Forall_forall _ _) Pd l Hin). reflexivity.
  - reflexivity.
Qed.

(** X10. The marker lines are exactly the four tokens with nothing but
    white space before and after them on the line. *)
Theorem marker_line_shape (l : text) :
  is_marker l = true <->
  exists a tok b,
    In tok tokens /\ all_space a = true /\ all_space b = true /\
    l = a ++ tok ++ b.
Proof.
  split.
  - intros M. destruct (strip_split l) as (a & b & Ha & Hb & E).
    exists a, (strip l), b. repeat split; auto.
    destruct (step_cases initial l) as [[[T|[T|[T|T]]] _] | N];
      try (rewrite T; simpl; tauto). congruence.
  - intros (a & tok & b & Hin & Ha & Hb & ->).
    unfold is_marker. rewrite (strip_pad a tok b Ha Hb).
    simpl in Hin. destruct Hin as [<-|[<-|[<-|[<-|[]]]]]; reflexivity.
Qed.

End ExtractorMore.

(** ** More on the call and the writes *)

Module RunMore.

Import CodeAssistant TextFacts RunFacts Shapes TextMore.

(** X11. The two artifacts are not written as one. When the code file
    cannot be opened nothing is opened at all. When it is opened and
    the code text cannot be encoded, the code file is left opened and
    empty. When the code file is written and named on the console and
    the doc file cannot be opened, the code file holds the code text
    and a line feed and stays, and the doc file is not touched. In each
    case the handler prints the text of the exception and leaves with
    status 1, or ends in a [MarkupError] when the console refuses that
    message. *)
Theorem artifact_writes_are_not_atomic
    (fs : file_system) (self : assistant) (content : text)
    (tr : list event) :
  let py := out_filename self ++ of_string ".py" in
  let md := out_filename self ++ of_string ".md" in
  let failed e :=
    print_and_exit (A:=unit) (console self)
      (ERROR_HEAD ++ of_string "Failed to write output files: " ++ e) in
  (writable fs py = false ->
   write_output_files fs self content tr = failed (write_error fs py) tr) /\
  (writable fs py = true -> encodable (code_content content) = false ->
   write_output_files fs self content tr =
     failed (encode_error fs (code_content content)) (tr ++ [OpenW py]) /\
   file_content py (fst (write_output_files fs self content tr)) = Some []) /\
  (writable fs py = true -> encodable (code_content content) = true ->
   console self (wrote_code_message py) = None ->
   writable fs md = false ->
   write_output_files fs self content tr =
     failed (write_error fs md)
       (tr ++ [OpenW py; Write py (code_content content); Write py [LF]]) /\
   files_written (fst (write_output_files fs self content tr)) =
     files_written tr ++ [py] /\
   file_content py (fst (write_output_files fs self content tr)) =
     Some (code_content content ++ [LF]) /\
   file_content md (fst (write_output_files fs self content tr)) =
     file_content md tr).
Proof.
  cbv zeta. rewrite write_output_files_result. cbv zeta.
  split; [|split].
  - intros ->. reflexivity.
  - intros -> ->. split; [reflexivity|].
    rewrite (proj1 (proj2 (proj2 (print_and_exit_effects _ _ _)))).
    rewrite file_content_app. simpl. rewrite text_eqb_refl. reflexivity.
  - intros -> -> -> ->. split; [reflexivity|].
    destruct (print_and_exit_effects (console self)
                (ERROR_HEAD ++ of_string "Failed to write output files: "
                 ++ write_error fs (out_filename self ++ of_string ".md"))
                (tr ++ [OpenW (out_filename self ++ of_string ".py");
                        Write (out_filename self ++ of_string ".py")
                          (code_content content);
                        Write (out_filename self ++ of_string ".py") [LF]]))
      as (_ & F & C & _).
    rewrite F, !C, files_written_app, !file_content_app. simpl.
    rewrite !text_eqb_app. simpl. auto.
Qed.

Lemma artifact_writes_are_not_atomic_witness :
  snd (write_output_files MoreSamples.no_doc_fs
         (Samples.assistant_with (Samples.answering Samples.two_pairs))
         Samples.two_pairs []) = Exited 1 /\
  file_content (of_string "out.py")
    (fst (write_output_files MoreSamples.no_doc_fs
            (Samples.assistant_with (Samples.answering Samples.two_pairs))
            Samples.two_pairs [])) =
  Some (code_content Samples.two_pairs ++ [LF]).
Proof.
  destruct (proj2 (proj2 (artifact_writes_are_not_atomic MoreSamples.no_doc_fs
              (Samples.assistant_with (Samples.answering Samples.two_pairs))
              Samples.two_pairs [])) eq_refl eq_refl eq_refl eq_refl)
    as (A & _ & B & _).
  split; [rewrite A; reflexivity | exact B].
Defined.

(** A code text with a lone surrogate leaves an empty code file. *)
Example surrogate_leaves_empty_code_file :
  file_content (of_string "out.py")
    (fst (write_output_files Samples.open_fs
            (Samples.assistant_with
               (Samples.answering MoreSamples.surrogate_reply))
            MoreSamples.surrogate_reply [])) = Some [] /\
  snd (write_output_files Samples.open_fs
         (Samples.assistant_with
            (Samples.answering MoreSamples.surrogate_reply))
         MoreSamples.surrogate_reply []) = Exited 1.
Proof. vm_compute. auto. Qed.

(** A stem with a closing tag: the code file is written, the print that
    names it raises, and so does the print of the handler. *)
Example tag_in_stem_stops_after_code_file :
  files_written
    (fst (write_output_files Samples.open_fs
            (MoreSamples.assistant_with_tag
               (Samples.answering Samples.two_pairs))
            Samples.two_pairs [])) = [of_string "out[/b].py"] /\
  snd (write_output_files Samples.open_fs
         (MoreSamples.assistant_with_tag
            (Samples.answering Samples.two_pairs))
         Samples.two_pairs []) = Uncaught MarkupError.
Proof. vm_compute. auto. Qed.

(** The part of [generate_code_and_doc] before the call. *)
Lemma generate_with_source
    (fs : file_system) (self : assistant) (src : text) (tr : list event) :
  source_of fs self = Some src ->
  generate_code_and_doc fs self tr =
  match client self (calls_made tr) (build_messages self src) with
  | Raises _ =>
      (tr ++ [ChatComplete MODEL (build_messages self src); PrintError],
       Exited 1)
  | Response choices =>
      if writable fs DUMP_PATH then
        (tr ++ [ChatComplete MODEL (build_messages self src);
                DumpRequest DUMP_PATH (build_messages self src)],
         match choices with
         | improved_code :: _ => Returned improved_code
         | [] => Uncaught IndexError
         end)
      else
        (tr ++ [ChatComplete MODEL (build_messages self src)],
         Uncaught OSError)
  end.
Proof.
  unfold source_of. intros Hsrc. run_unfold. unfold DUMP_PATH, MODEL.
  destruct (input_code_file self) as [p|].
  - destruct (read_file fs p) as [c|]; [|discriminate].
    injection Hsrc as <-.
    destruct (client self (calls_made tr) (build_messages self (fenced c)))
      as [[|c' cs]|k];
      try destruct (writable fs (of_string "api_request.json"));
      rewrite <- ?app_assoc; reflexivity.
  - injection Hsrc as <-.
    destruct (client self (calls_made tr) (build_messages self []))
      as [[|c' cs]|k];
      try destruct (writable fs (of_string "api_request.json"));
      rewrite <- ?app_assoc; reflexivity.
Qed.



(** X13. A response without any choice ends the run with an uncaught
    [IndexError]: one call was made, the request was dumped, and no
    artifact file was opened. *)
Theorem empty_choices_end_in_index_error
    (fs : file_system) (self : assistant) (src : text) (tr : list event) :
  source_of fs self = Some src ->
  client self (calls_made tr) (build_messages self src) = Response [] ->
  writable fs DUMP_PATH = true ->
  run fs self tr =
  (tr ++ [ChatComplete MODEL (build_messages self src);
          DumpRequest DUMP_PATH (build_messages self src)],
   Uncaught IndexError).
Proof.
  intros Hsrc Hc Hw. unfold run, bind.
  rewrite (generate_with_source fs self src tr Hsrc), Hc, Hw. reflexivity.
Qed.

Lemma empty_choices_end_in_index_error_witness :
  snd (run Samples.open_fs
         (Samples.assistant_with MoreSamples.no_choice) []) =
  Uncaught IndexError.
Proof.
  rewrite (empty_choices_end_in_index_error Samples.open_fs
             (Samples.assistant_with MoreSamples.no_choice) [] []
             eq_refl eq_refl eq_refl).
  reflexivity.
Defined.

(** X14. When [api_request.json] cannot be opened for writing, a run
    whose call succeeded ends with an uncaught [OSError] before the
    response is read: the reply is lost and no artifact file is
    opened. *)
Theorem unwritable_dump_loses_the_reply
    (fs : file_system) (self : assistant) (src : text)
    (choices : list text) (tr : list event) :
  source_of fs self = Some src ->
  client self (calls_made tr) (build_messages self src) = Response choices ->
  writable fs DUMP_PATH = false ->
  run fs self tr =
  (tr ++ [ChatComplete MODEL (build_messages self src)], Uncaught OSError).
Proof.
  intros Hsrc Hc Hw. unfold run, bind.
  rewrite (generate_with_source fs self src tr Hsrc), Hc, Hw. reflexivity.
Qed.

Lemma unwritable_dump_loses_the_reply_witness :
  snd (run MoreSamples.no_dump_fs
         (Samples.assistant_with (Samples.answering Samples.two_pairs)) []) =
  Uncaught OSError.
Proof.
  rewrite (unwritable_dump_loses_the_reply MoreSamples.no_dump_fs
             (Samples.assistant_with (Samples.answering Samples.two_pairs))
             [] [Samples.two_pairs] [] eq_refl eq_refl eq_refl).
  reflexivity.
Defined.

(** X15. When an input file is named and cannot be read, the client is
    not called and nothing is written: the run is the handler of
    [read_code_file], which prints a message holding the path, or the
    text of the exception, and leaves with status 1; when the console
    refuses that message the run ends in a [MarkupError] instead. *)
Theorem unreadable_input_stops_before_the_call
    (fs : file_system) (self : assistant) (path : text) (tr : list event) :
  input_code_file self = Some path ->
  read_file fs path = None ->
  run fs self tr =
    print_and_exit (console self) (read_failure_message fs path) tr /\
  calls_made (fst (run fs self tr)) = calls_made tr /\
  files_written (fst (run fs self tr)) = files_written tr /\
  (console self (read_failure_message fs path) = None ->
   run fs self tr = (tr ++ [PrintError], Exited 1)) /\
  (console self (read_failure_message fs path) <> None ->
   run fs self tr = (tr, Uncaught MarkupError)).
Proof.
  intros Hin Hr.
  assert (E : run fs self tr =
              print_and_exit (console self) (read_failure_message fs path) tr).
  { run_unfold. rewrite Hin, Hr. unfold print_and_exit.
    destruct (console self (read_failure_message fs path)); reflexivity. }
  rewrite E.
  destruct (print_and_exit_effects (console self)
              (read_failure_message fs path) tr) as (C & F & _ & _).
  repeat split; auto; unfold print_and_exit;
    destruct (console self (read_failure_message fs path));
    congruence.
Qed.

Lemma unreadable_input_stops_before_the_call_witness :
  run MoreSamples.unreadable_fs
    (MoreSamples.assistant_reading (Samples.answering Samples.two_pairs)) [] =
  ([PrintError], Exited 1).
Proof.
  apply (proj1 (proj2 (proj2 (proj2
    (unreadable_input_stops_before_the_call MoreSamples.unreadable_fs
       (MoreSamples.assistant_reading (Samples.answering Samples.two_pairs))
       (of_string "in.py") [] eq_refl eq_refl))))).
  reflexivity.
Defined.

(** An input path with a closing tag that cannot be read. *)
Example tag_in_input_path_ends_in_markup_error :
  run MoreSamples.unreadable_fs
    (MoreSamples.assistant_reading_tag (Samples.answering Samples.two_pairs))
    [] = ([], Uncaught MarkupError).
Proof. vm_compute. reflexivity. Qed.

Lemma complement_prompt_names_tokens (tok : text) :
  In tok tokens -> contains tok COMPLEMENT_PROMPT = true.
Proof.
  simpl. intros [<-|[<-|[<-|[<-|[]]]]]; vm_compute; reflexivity.
Qed.

(** X16. Whatever the prompt and the source, the request is two
    messages, the system message first; the content of the user message
    starts with the prompt, ends with the source, and holds each of the
    four marker tokens. *)
Theorem request_names_the_markers (self : assistant) (src : text) :
  exists sys usr rest,
    build_messages self src = [sys; usr] /\
    role sys = of_string "system" /\ content sys = SYSTEM_PROMPT /\
    role usr = of_string "user" /\
    content usr = prompt self ++ rest ++ src /\
    forallb (fun tok => contains tok (content usr)) tokens = true.
Proof.
  exists (mk_message (of_string "system") SYSTEM_PROMPT),
         (mk_message (of_string "user")
            ((prompt self ++ of_string "; " ++ COMPLEMENT_PROMPT) ++ src)),
         (of_string "; " ++ COMPLEMENT_PROMPT).
  cbn [role content].
  repeat split; try reflexivity.
  - rewrite <- !app_assoc. reflexivity.
  - apply forallb_forall. intros tok Hin.
    replace ((prompt self ++ of_string "; " ++ COMPLEMENT_PROMPT) ++ src)
      with ((prompt self ++ of_string "; ") ++ COMPLEMENT_PROMPT ++ src)
      by (rewrite <- !app_assoc; reflexivity).
    apply contains_app, complement_prompt_names_tokens, Hin.
Qed.

End RunMore.

(** ** Start-up and [main] *)

Module MainMore.

Import CodeAssistant TextFacts RunFacts Shapes.

Lemma existsb_text_In (t : text) (l : list text) :
  existsb (text_eqb t) l = true <-> In t l.
Proof.
  rewrite existsb_exists. split.
  - intros (x & Hin & E). apply text_eqb_eq in E. subst. exact Hin.
  - intros Hin. exists t. split; [exact Hin | apply text_eqb_refl].
Qed.

Lemma wants_help_iff (argv : list text) :
  Main.wants_help argv = true <->
  List.length argv = 1 \/ In (of_string "-h") argv \/
  In (of_string "--help") argv.
Proof.
  unfold Main.wants_help.
  rewrite !orb_true_iff, !existsb_text_In, Nat.eqb_eq. tauto.
Qed.

(** X17. With no argument at all, or with [-h] or [--help] anywhere on
    the command line, even as the value of another option, [main]
    leaves with status 0 at once: the key is not looked up, the
    library parser is not run, nothing is read, called or written. *)
Theorem help_needs_nothing
    (con : console_t) (fs : file_system) (key : option text)
    (Mistral : text -> option Main.client_t)
    (parse_args : list text -> outcome Main.namespace)
    (argv : list text) (tr : list event) :
  List.length argv = 1 \/ In (of_string "-h") argv \/
  In (of_string "--help") argv ->
  Main.main con fs key Mistral parse_args argv tr = (tr, Exited 0).
Proof.
  intros H. apply wants_help_iff in H.
  unfold Main.main, Main.parse_arguments, bind. rewrite H. reflexivity.
Qed.

Lemma help_needs_nothing_witness :
  Main.main Samples.plain_console MoreSamples.unreadable_fs None
    (fun _ => None)
    MoreSamples.no_parse
    [of_string "codewizard.py"; of_string "-o"; of_string "--help"] [] =
  ([], Exited 0).
Proof.
  apply help_needs_nothing. right; right. simpl. auto.
Defined.

(** X18. Once the arguments are parsed, a key that is unset or empty,
    or a client that cannot be made from the key, ends [main] with the
    error print and exit status 1 before anything is read, called or
    written. *)
Theorem no_key_no_run
    (con : console_t) (fs : file_system) (key : option text)
    (Mistral : text -> option Main.client_t)
    (parse_args : list text -> outcome Main.namespace)
    (argv : list text) (ns : Main.namespace) (tr : list event) :
  Main.wants_help argv = false ->
  parse_args argv = Returned ns ->
  key = None \/ key = Some [] \/
  (exists k, key = Some k /\ Mistral k = None) ->
  Main.main con fs key Mistral parse_args argv tr =
  (tr ++ [PrintError], Exited 1).
Proof.
  intros Hh Hp Hk.
  unfold Main.main, Main.parse_arguments, Main.init,
    Main.initialize_mistral_client, bind, emit, sys_exit, ret.
  rewrite Hh, Hp.
  destruct Hk as [-> | [-> | (k & -> & Hm)]]; try reflexivity.
  rewrite Hm. destruct k; reflexivity.
Qed.

Lemma no_key_no_run_witness :
  Main.main Samples.plain_console Samples.open_fs (Some [])
    MoreSamples.any_client
    (MoreSamples.parse_to
       (Main.mk_namespace None (of_string "out") (of_string "improve")))
    [of_string "codewizard.py"; of_string "-o"; of_string "out"] [] =
  ([PrintError], Exited 1).
Proof.
  apply (no_key_no_run Samples.plain_console Samples.open_fs (Some [])
           MoreSamples.any_client
           (MoreSamples.parse_to
              (Main.mk_namespace None (of_string "out") (of_string "improve")))
           [of_string "codewizard.py"; of_string "-o"; of_string "out"]
           (Main.mk_namespace None (of_string "out") (of_string "improve")) []);
    auto.
Defined.

(** X19. With parsed arguments, a key that is not empty and a client
    made from it, [main] is the run of the assistant built from the
    three parsed values and that client, from the same trace. *)
Theorem main_is_run_on_parsed_arguments
    (con : console_t) (fs : file_system) (k : text)
    (Mistral : text -> option Main.client_t) (c : Main.client_t)
    (parse_args : list text -> outcome Main.namespace)
    (argv : list text) (ns : Main.namespace) (tr : list event) :
  Main.wants_help argv = false ->
  parse_args argv = Returned ns ->
  k <> [] -> Mistral k = Some c ->
  Main.main con fs (Some k) Mistral parse_args argv tr =
  run fs (mk_assistant con c (Main.ns_prompt ns) (Main.ns_input_code_file ns)
            (Main.ns_out_filename ns)) tr.
Proof.
  intros Hh Hp Hk Hm.
  unfold Main.main, Main.parse_arguments, Main.init,
    Main.initialize_mistral_client.
  unfold bind at 1 2 3. unfold ret. rewrite Hh, Hp.
  destruct k as [|x k]; [congruence|]. rewrite Hm. reflexivity.
Qed.

Lemma main_is_run_on_parsed_arguments_witness :
  snd (Main.main Samples.plain_console Samples.open_fs
         (Some (of_string "secret"))
         MoreSamples.any_client
         (MoreSamples.parse_to
            (Main.mk_namespace None (of_string "out") (of_string "improve")))
         [of_string "codewizard.py"; of_string "-o"; of_string "out"] []) =
  Returned tt.
Proof.
  rewrite (main_is_run_on_parsed_arguments Samples.plain_console
             Samples.open_fs
             (of_string "secret") MoreSamples.any_client
             (Samples.answering Samples.two_pairs)
             (MoreSamples.parse_to
                (Main.mk_namespace None (of_string "out")
                   (of_string "improve")))
             [of_string "codewizard.py"; of_string "-o"; of_string "out"]
             (Main.mk_namespace None (of_string "out") (of_string "improve"))
             [] eq_refl eq_refl).
  - reflexivity.
  - discriminate.
  - reflexivity.
Defined.

End MainMore.

(** ** The assistant of [codemistral-wizard.py] *)

Module ImproveMore.

Import CodeAssistant TextFacts RunFacts Shapes.

Ltac improve_unfold :=
  unfold CodeImprovementAssistant.run,
    CodeImprovementAssistant.generate_improved_code,
    CodeImprovementAssistant.read_code_file,
    CodeImprovementAssistant.write_output_file;
  cbv [try_write try_then write_file open_w fout_write print_markup
       bind ret emit trace sys_exit raise].


(** X20. When the input file can be read, the call returns a choice,
    the output path can be opened, the reply can be encoded and the
    console prints the message that names the path, the run of the
    improvement assistant makes one call with a single user message
    holding the prompt and the fenced source, and writes one file, at
    the output path as given, holding the first choice as it came
    followed by one line feed; nothing is extracted and no request is
    dumped. *)
Theorem reply_is_written_verbatim
    (con : console_t) (fs : file_system)
    (args : CodeImprovementAssistant.arguments)
    (c : Main.client_t) (src reply : text) (others : list text)
    (tr : list event) :
  read_file fs (CodeImprovementAssistant.input args) = Some src ->
  c (calls_made tr) (CodeImprovementAssistant.build_message args src) =
    Response (reply :: others) ->
  writable fs (CodeImprovementAssistant.output args) = true ->
  encodable reply = true ->
  con (wrote_code_message (CodeImprovementAssistant.output args)) = None ->
  CodeImprovementAssistant.run con fs args c tr =
    (tr ++ [ChatComplete MODEL
              (CodeImprovementAssistant.build_message args src);
            OpenW (CodeImprovementAssistant.output args);
            Write (CodeImprovementAssistant.output args) reply;
            Write (CodeImprovementAssistant.output args) [LF]],
     Returned tt) /\
  file_content (CodeImprovementAssistant.output args)
    (fst (CodeImprovementAssistant.run con fs args c tr)) =
    Some (reply ++ [LF]).
Proof.
  intros Hr Hc Hw He Hp.
  assert (E : CodeImprovementAssistant.run con fs args c tr =
    (tr ++ [ChatComplete MODEL
              (CodeImprovementAssistant.build_message args src);
            OpenW (CodeImprovementAssistant.output args);
            Write (CodeImprovementAssistant.output args) reply;
            Write (CodeImprovementAssistant.output args) [LF]],
     Returned tt)).
  { improve_unfold. rewrite Hr, Hc, Hw, He, Hp.
    change (encodable [LF]) with true. cbv iota.
    rewrite <- !app_assoc. reflexivity. }
  split; [exact E|]. rewrite E. simpl fst.
  rewrite file_content_app. simpl. rewrite !text_eqb_refl. reflexivity.
Qed.

Lemma reply_is_written_verbatim_witness :
  file_content (of_string "better.py")
    (fst (CodeImprovementAssistant.run Samples.plain_console Samples.open_fs
            MoreSamples.improve_args
            (Samples.answering Samples.two_pairs) [])) =
  Some (Samples.two_pairs ++ [LF]).
Proof.
  exact (proj2 (reply_is_written_verbatim Samples.plain_console
                  Samples.open_fs MoreSamples.improve_args
                  (Samples.answering Samples.two_pairs)
                  [] Samples.two_pairs [] []
                  eq_refl eq_refl eq_refl eq_refl eq_refl)).
Defined.



(** A text with a lone surrogate handed to [write_output_file]: the
    file is opened and left empty, and the method leaves with status
    1. *)
Example surrogate_text_leaves_empty_file :
  file_content (of_string "better.py")
    (fst (CodeImprovementAssistant.write_output_file Samples.plain_console
            Samples.open_fs (of_string "better.py")
            MoreSamples.surrogate_reply [])) = Some [] /\
  snd (CodeImprovementAssistant.write_output_file Samples.plain_console
         Samples.open_fs (of_string "better.py")
         MoreSamples.surrogate_reply []) = Exited 1.
Proof. vm_compute. auto. Qed.

End ImproveMore.
